(** * k6 crypto module: binary codec and signature engine

    A shallow embedding of [js/modules/k6/crypto/code.go] (the binary
    codec) and of the signing / verification file of the same package
    (one-shot [Sign]/[Verify], and the chunked [Signer]/[Verifier]).

    Conventions of the embedding
    - a Go [[]byte] is a [list byte]; a Go [string] is a [string]; the
      conversions [[]byte(s)] and [string(b)] are [list_byte_of_string]
      and [string_of_list_byte];
    - a Go [interface{}] holding a script value is a [value];
    - a Go function returning [(T, error)] returns a [result T];
    - a Go panic (a failed type assertion, or [throw], which panics with
      the script exception) is the [Panicked] outcome of the [go] monad;
    - [map[string]string] is a [gmap string string], a missing key reads
      as the empty string. *)

From Stdlib Require Import ZArith Lia List String Ascii.
From Stdlib Require Import Strings.Byte.
From stdpp Require Import base option gmap strings.

Import ListNotations.
Local Open Scope string_scope.
Local Open Scope Z_scope.

(** ** Errors and results *)

(** Go [error] values met in the package.  [errors_New] and
    [errors_Wrap] are the two constructors of [github.com/pkg/errors]
    the code uses; the others are the error values of the Go libraries
    ([encoding/hex], [encoding/base64], [strconv]; the offset carried by
    base64's [CorruptInputError] is not modelled) and an opaque
    [lib_error] for the failures of [encoding/asn1] and [crypto/...]. *)
Inductive error : Type :=
| errors_New (msg : string)
| errors_Wrap (cause : error) (msg : string)
| hex_InvalidByteError (c : byte)
| hex_ErrLength
| base64_CorruptInputError
| strconv_ErrSyntax
| strconv_ErrRange
| lib_error (msg : string).

Inductive result (A : Type) : Type :=
| Ok (a : A)
| Err (e : error).
Arguments Ok {A} a.
Arguments Err {A} e.

Definition is_ok {A} (r : result A) : bool :=
  match r with Ok _ => true | Err _ => false end.

(** The error kinds the specification names, as the messages the code
    builds. *)
Definition UnsupportedEncoding (format : string) : error :=
  errors_New ("unsupported binary encoding: " ++ format).
Definition UnrecognizedEncoding : error :=
  errors_New "unrecognized binary encoding".
Definition UnsupportedPaddingScheme (type : string) : error :=
  errors_New ("unsupported type: " ++ type).

(** A script value arriving as [interface{}]: a byte array, a string, or
    anything else (number, object, null ...). *)
Inductive value : Type :=
| VBytes (b : list byte)
| VString (s : string)
| VOther.

(** ** Bytes as integers *)

Definition byte_to_Z (b : byte) : Z := Z.of_N (Byte.to_N b).

(** Conversion of an unsigned integer to [byte] keeps the low 8 bits. *)
Definition byte_of_Z (z : Z) : byte :=
  match Byte.of_N (Z.to_N (z mod 256)) with
  | Some b => b
  | None => x00
  end.

Definition byte_eqb (a b : byte) : bool := Byte.eqb a b.

(** ** encoding/hex *)

Definition hextable : list byte := list_byte_of_string "0123456789abcdef".

(** [hextable[i]] *)
Definition hexdigit (i : Z) : byte := nth (Z.to_nat i) hextable x00.

(** [hex.Encode]: two digits per byte, high nibble first. *)
Definition hex_Encode (src : list byte) : list byte :=
  flat_map (fun v =>
              [hexdigit (Z.shiftr (byte_to_Z v) 4);
               hexdigit (Z.land (byte_to_Z v) 15)]) src.

Definition hex_EncodeToString (src : list byte) : string :=
  string_of_list_byte (hex_Encode src).

(** [fromHexChar]: digits, lower and upper case letters. *)
Definition fromHexChar (c : byte) : option Z :=
  let n := byte_to_Z c in
  if (48 <=? n) && (n <=? 57) then Some (n - 48)
  else if (97 <=? n) && (n <=? 102) then Some (n - 97 + 10)
  else if (65 <=? n) && (n <=? 70) then Some (n - 65 + 10)
  else None.

(** [hex.Decode]: pairs of digits; an odd trailing character is reported
    as an invalid byte when it is not a digit, as a bad length when it
    is. *)
Fixpoint hex_Decode (src : list byte) : result (list byte) :=
  match src with
  | [] => Ok []
  | [c] =>
      match fromHexChar c with
      | None => Err (hex_InvalidByteError c)
      | Some _ => Err hex_ErrLength
      end
  | p :: q :: rest =>
      match fromHexChar p with
      | None => Err (hex_InvalidByteError p)
      | Some a =>
          match fromHexChar q with
          | None => Err (hex_InvalidByteError q)
          | Some b =>
              match hex_Decode rest with
              | Ok out => Ok (byte_of_Z (Z.lor (Z.shiftl a 4) b) :: out)
              | Err e => Err e
              end
          end
      end
  end.

Definition hex_DecodeString (s : string) : result (list byte) :=
  hex_Decode (list_byte_of_string s).

(** ** encoding/base64, [StdEncoding] *)

Definition encodeStd : list byte :=
  list_byte_of_string
    "ABCDEFGHIJKLMNOPQRSTUVWXYZabcdefghijklmnopqrstuvwxyz0123456789+/".

Definition padChar : byte := "="%byte.

(** [enc.encode[i]] *)
Definition b64digit (i : Z) : byte := nth (Z.to_nat i) encodeStd x00.

(** Position of [c] in alphabet [l], counted from [i]. *)
Fixpoint index_from (i : Z) (c : byte) (l : list byte) : option Z :=
  match l with
  | [] => None
  | x :: l' => if byte_eqb x c then Some i else index_from (i + 1) c l'
  end.

(** [enc.decodeMap[c]]; [None] stands for the entry 0xFF. *)
Definition decodeMap (c : byte) : option Z := index_from 0 c encodeStd.

(** [base64.Encode]: three bytes to four digits, the last group padded. *)
Fixpoint base64_Encode (src : list byte) : list byte :=
  match src with
  | [] => []
  | [a] =>
      let val := Z.shiftl (byte_to_Z a) 16 in
      [b64digit (Z.land (Z.shiftr val 18) 63);
       b64digit (Z.land (Z.shiftr val 12) 63);
       padChar; padChar]
  | [a; b] =>
      let val := Z.lor (Z.shiftl (byte_to_Z a) 16) (Z.shiftl (byte_to_Z b) 8) in
      [b64digit (Z.land (Z.shiftr val 18) 63);
       b64digit (Z.land (Z.shiftr val 12) 63);
       b64digit (Z.land (Z.shiftr val 6) 63);
       padChar]
  | a :: b :: c :: rest =>
      let val := Z.lor (Z.lor (Z.shiftl (byte_to_Z a) 16)
                              (Z.shiftl (byte_to_Z b) 8))
                       (byte_to_Z c) in
      b64digit (Z.land (Z.shiftr val 18) 63)
      :: b64digit (Z.land (Z.shiftr val 12) 63)
      :: b64digit (Z.land (Z.shiftr val 6) 63)
      :: b64digit (Z.land val 63)
      :: base64_Encode rest
  end.

Definition base64_EncodeToString (src : list byte) : string :=
  string_of_list_byte (base64_Encode src).

Definition isNewline (c : byte) : bool :=
  byte_eqb c "010"%byte || byte_eqb c "013"%byte.

(** The loops [for si < len(src) && (src[si] == '\n' || src[si] == '\r')]. *)
Fixpoint skipNewlines (src : list byte) : list byte :=
  match src with
  | c :: rest => if isNewline c then skipNewlines rest else src
  | [] => []
  end.

(** The bytes of one quantum: [dbuf] holds the [dlen] digits read (the
    missing ones count as 0), [dlen - 1] bytes come out. *)
Definition quantumBytes (dbuf : list Z) : list byte :=
  let d (i : nat) := nth i dbuf 0 in
  let val := Z.lor (Z.lor (Z.lor (Z.shiftl (d 0%nat) 18) (Z.shiftl (d 1%nat) 12))
                          (Z.shiftl (d 2%nat) 6))
                   (d 3%nat) in
  firstn (length dbuf - 1)
    [byte_of_Z (Z.shiftr val 16); byte_of_Z (Z.shiftr val 8); byte_of_Z val].

(** [base64.Decode]: [dbuf] is the quantum being filled.  New lines are
    skipped everywhere, padding is required and must end the input. *)
Fixpoint base64_decode (dbuf : list Z) (src : list byte) : result (list byte) :=
  match src with
  | [] =>
      match dbuf with
      | [] => Ok []
      | _ => Err base64_CorruptInputError
      end
  | c :: rest =>
      match decodeMap c with
      | Some out =>
          let dbuf' := (dbuf ++ [out])%list in
          if (length dbuf' =? 4)%nat then
            match base64_decode [] rest with
            | Ok tl => Ok (quantumBytes dbuf' ++ tl)%list
            | Err e => Err e
            end
          else base64_decode dbuf' rest
      | None =>
          if isNewline c then base64_decode dbuf rest
          else if byte_eqb c padChar then
            match length dbuf with
            | 0%nat | 1%nat => Err base64_CorruptInputError
            | 2%nat =>
                match skipNewlines rest with
                | [] => Err base64_CorruptInputError
                | c2 :: rest2 =>
                    if byte_eqb c2 padChar then
                      match skipNewlines rest2 with
                      | [] => Ok (quantumBytes dbuf)
                      | _ => Err base64_CorruptInputError
                      end
                    else Err base64_CorruptInputError
                end
            | _ =>
                match skipNewlines rest with
                | [] => Ok (quantumBytes dbuf)
                | _ => Err base64_CorruptInputError
                end
            end
          else Err base64_CorruptInputError
      end
  end.

Definition base64_Decode (src : list byte) : result (list byte) :=
  base64_decode [] src.

Definition base64_DecodeString (s : string) : result (list byte) :=
  base64_Decode (list_byte_of_string s).

(** ** code.go *)

Definition decodeBytes (abstracted : value) : result (list byte) :=
  match abstracted with
  | VBytes decoded => Ok decoded
  | _ => Err (errors_New "not a byte array")
  end.

Definition decodeHex (abstracted : value) : result (list byte) :=
  match abstracted with
  | VString encoded => hex_DecodeString encoded
  | _ => Err (errors_New "not a hex string")
  end.

Definition decodeBase64 (abstracted : value) : result (list byte) :=
  match abstracted with
  | VString encoded => base64_DecodeString encoded
  | _ => Err (errors_New "not a base64 string")
  end.

Definition decodeBinaryKnown (encoded : value) (format : string)
  : result (list byte) :=
  if String.eqb format "binary" then decodeBytes encoded
  else if String.eqb format "hex" then decodeHex encoded
  else if String.eqb format "base64" then decodeBase64 encoded
  else Err (UnsupportedEncoding format).

Definition decodeBinaryDetect (encoded : value) : result (list byte) :=
  match decodeBytes encoded with
  | Ok decoded => Ok decoded
  | Err _ =>
      match decodeHex encoded with
      | Ok decoded => Ok decoded
      | Err _ =>
          match decodeBase64 encoded with
          | Ok decoded => Ok decoded
          | Err _ => Err UnrecognizedEncoding
          end
      end
  end.

Definition decodeBinary (encoded : value) (format : string)
  : result (list byte) :=
  if negb (String.eqb format "") then decodeBinaryKnown encoded format
  else decodeBinaryDetect encoded.

Definition encodeBinary (v : list byte) (format : string) : result value :=
  if String.eqb format "" then Ok (VBytes v)
  else if String.eqb format "binary" then Ok (VBytes v)
  else if String.eqb format "hex" then Ok (VString (hex_EncodeToString v))
  else if String.eqb format "base64" then Ok (VString (base64_EncodeToString v))
  else Err (UnsupportedEncoding format).


(** ** Go run-time outcomes *)

(** A Go call either returns or panics.  The package panics in two
    ways: a type assertion [x.(T)] on a value of another dynamic type,
    and [throw], which raises the error as a script exception. *)
Inductive panic : Type :=
| TypeAssertionPanic
| Thrown (e : error).

Inductive go (A : Type) : Type :=
| Done (a : A)
| Panicked (p : panic).
Arguments Done {A} a.
Arguments Panicked {A} p.

#[global] Instance go_ret : MRet go := fun A a => Done a.
#[global] Instance go_bind : MBind go := fun A B f m =>
  match m with
  | Done a => f a
  | Panicked p => Panicked p
  end.

(** [throw(ctx, err)] *)
Definition throw {A} (err : error) : go A := Panicked (Thrown err).

(** The pattern [v, err := f(...); if err != nil { throw(ctx, err) }]. *)
Definition orThrow {A} (r : result A) : go A :=
  match r with
  | Ok a => Done a
  | Err e => throw e
  end.

(** ** Keys *)

(** Key material of [crypto/rsa], [crypto/dsa] and [crypto/ecdsa];
    [big.Int] is [Z].  A private key embeds its public key. *)
Record rsa_PublicKey : Type := { rsa_N : Z; rsa_E : Z }.
Record rsa_PrivateKey : Type :=
  { rsa_Public : rsa_PublicKey; rsa_D : Z; rsa_Primes : list Z }.
Record dsa_PublicKey : Type :=
  { dsa_P : Z; dsa_Q : Z; dsa_G : Z; dsa_Y : Z }.
Record dsa_PrivateKey : Type := { dsa_Public : dsa_PublicKey; dsa_X : Z }.
Record ecdsa_PublicKey : Type :=
  { ecdsa_Curve : string; ecdsa_X : Z; ecdsa_Y : Z }.
Record ecdsa_PrivateKey : Type :=
  { ecdsa_Public : ecdsa_PublicKey; ecdsa_D : Z }.

(** The dynamic content of the [Key interface{}] field. *)
Inductive key : Type :=
| KeyRSAPublic (k : rsa_PublicKey)
| KeyRSAPrivate (k : rsa_PrivateKey)
| KeyDSAPublic (k : dsa_PublicKey)
| KeyDSAPrivate (k : dsa_PrivateKey)
| KeyECDSAPublic (k : ecdsa_PublicKey)
| KeyECDSAPrivate (k : ecdsa_PrivateKey)
| KeyOther.

(** Modelled from the spec: the declarations of [x509.PublicKey] and
    [x509.PrivateKey] (package [x509] of this repository), a tagged
    union over RSA, DSA and ECDSA: the fields [Algorithm] and [Key] are
    the two the signing code reads. *)
Record x509_PublicKey : Type :=
  { pub_Algorithm : string; pub_Key : key }.
Record x509_PrivateKey : Type :=
  { priv_Algorithm : string; priv_Key : key }.

(** The unchecked type assertions on [signer.Key], one per key type. *)
Definition as_rsa_PublicKey (k : key) : go rsa_PublicKey :=
  match k with KeyRSAPublic k => Done k | _ => Panicked TypeAssertionPanic end.
Definition as_dsa_PublicKey (k : key) : go dsa_PublicKey :=
  match k with KeyDSAPublic k => Done k | _ => Panicked TypeAssertionPanic end.
Definition as_ecdsa_PublicKey (k : key) : go ecdsa_PublicKey :=
  match k with KeyECDSAPublic k => Done k | _ => Panicked TypeAssertionPanic end.
Definition as_rsa_PrivateKey (k : key) : go rsa_PrivateKey :=
  match k with KeyRSAPrivate k => Done k | _ => Panicked TypeAssertionPanic end.
Definition as_dsa_PrivateKey (k : key) : go dsa_PrivateKey :=
  match k with KeyDSAPrivate k => Done k | _ => Panicked TypeAssertionPanic end.
Definition as_ecdsa_PrivateKey (k : key) : go ecdsa_PrivateKey :=
  match k with KeyECDSAPrivate k => Done k | _ => Panicked TypeAssertionPanic end.

(** ** Options *)

(** [type SigningOptions map[string]string]; [options[k]] reads the
    empty string for a missing key. *)
Abbreviation SigningOptions := (gmap string string).

Definition option_get (options : SigningOptions) (k : string) : string :=
  default "" (options !! k).

(** [rsa.PSSOptions], the one field the code sets. *)
Record rsa_PSSOptions : Type := { SaltLength : Z }.

(** [gocrypto.Hash], an unsigned identifier. *)
Definition Hash : Type := Z.

(** What [rand.Reader] delivers during one signing call. *)
Definition entropy : Type := nat -> byte.

(** ** strconv.ParseInt, base 10, 64 bits *)

Definition maxUint64 : Z := 2 ^ 64 - 1.

(** The digit loop of [strconv.ParseUint]: [n] is the value so far. *)
Fixpoint parseUint_digits (n : Z) (s : list byte) : result Z :=
  match s with
  | [] => Ok n
  | c :: rest =>
      let v := byte_to_Z c in
      if (48 <=? v) && (v <=? 57) then
        let d := v - 48 in
        if n >=? maxUint64 / 10 + 1 then Err strconv_ErrRange
        else
          let n10 := n * 10 in
          let n1 := (n10 + d) mod 2 ^ 64 in
          if (n1 <? n10) || (n1 >? maxUint64) then Err strconv_ErrRange
          else parseUint_digits n1 rest
      else Err strconv_ErrSyntax
  end.

Definition strconv_ParseUint (s : list byte) : result Z :=
  match s with
  | [] => Err strconv_ErrSyntax
  | _ => parseUint_digits 0 s
  end.

(** [strconv.ParseInt(s, 10, 64)]: an optional sign, then the unsigned
    value checked against the signed range. *)
Definition strconv_ParseInt (s : string) : result Z :=
  match list_byte_of_string s with
  | [] => Err strconv_ErrSyntax
  | c :: rest =>
      let neg := byte_eqb c "-"%byte in
      let digits :=
        if byte_eqb c "+"%byte then rest
        else if neg then rest
        else c :: rest in
      match strconv_ParseUint digits with
      | Err strconv_ErrRange => Err strconv_ErrRange
      | Err e => Err e
      | Ok un =>
          let cutoff := 2 ^ 63 in
          if negb neg && (un >=? cutoff) then Err strconv_ErrRange
          else if neg && (un >? cutoff) then Err strconv_ErrRange
          else if neg then Ok (- un) else Ok un
      end
  end.

(** ** The libraries the engine calls *)

(** The operations of [crypto/rsa], [crypto/dsa], [crypto/ecdsa] and
    [encoding/asn1] the file calls, with the randomness of [rand.Reader]
    made an argument.  [asn1_Marshal] and [asn1_Unmarshal] are the two
    calls at the type [struct { R, S *big.Int }]; the second also
    returns the bytes left over, which the code ignores.

    Modelled from the spec: [decodeFunction] and [makeHasher] belong to
    this package but to another file.  [decodeFunction] resolves a
    digest name; [hasher_Digest name plaintext] stands for
    [makeHasher(ctx, name)], [Update(plaintext)] and [Digest("binary")]
    in a row: a digest function selected by name, returning the raw
    digest bytes, and throwing for a name the host does not provide. *)
Record Primitives : Type := {
  decodeFunction : string -> result Hash;
  hasher_Digest : string -> list byte -> go value;
  rsa_SignPKCS1v15 :
    entropy -> rsa_PrivateKey -> Hash -> list byte -> result (list byte);
  rsa_VerifyPKCS1v15 :
    rsa_PublicKey -> Hash -> list byte -> list byte -> option error;
  rsa_SignPSS :
    entropy -> rsa_PrivateKey -> Hash -> list byte -> rsa_PSSOptions ->
    result (list byte);
  rsa_VerifyPSS :
    rsa_PublicKey -> Hash -> list byte -> list byte -> rsa_PSSOptions ->
    option error;
  dsa_Sign : entropy -> dsa_PrivateKey -> list byte -> result (Z * Z);
  dsa_Verify : dsa_PublicKey -> list byte -> Z -> Z -> bool;
  ecdsa_Sign : entropy -> ecdsa_PrivateKey -> list byte -> result (Z * Z);
  ecdsa_Verify : ecdsa_PublicKey -> list byte -> Z -> Z -> bool;
  asn1_Marshal : Z * Z -> result (list byte);
  asn1_Unmarshal : list byte -> result ((Z * Z) * list byte)
}.

(** ** The signature engine *)

Section Engine.

Context (lib : Primitives).

(** The final conversion [int(decoded)] is the identity: [int] is 64
    bits wide on the platforms the tool is built for. *)
Definition decodeInt (encoded : string) : Z :=
  match strconv_ParseInt encoded with
  | Err _ => 0
  | Ok decoded => decoded
  end.

Definition decodePssOptions (options : SigningOptions) : rsa_PSSOptions :=
  {| SaltLength := decodeInt (option_get options "saltLength") |}.

Definition hashPlaintext (function : string) (plaintext : list byte)
  : go (result (list byte)) :=
  abstracted ← hasher_Digest lib function plaintext;
  match abstracted with
  | VBytes digest => Done (Ok digest)
  | _ => Done (Err (errors_New "could not hash data: invalid return value"))
  end.

Definition decodeSignature (encoded : value) : result (list byte) :=
  match decodeBinaryDetect encoded with
  | Err err => Err (errors_Wrap err "could not decode signature")
  | Ok decoded => Ok decoded
  end.

Definition decodePlaintext (encoded : value) : result (list byte) :=
  match decodeBinaryDetect encoded with
  | Err err => Err (errors_Wrap err "could not decode data")
  | Ok decoded => Ok decoded
  end.

(** [nil] is [None]. *)
Definition validatePublicKey (k : x509_PublicKey) : option error :=
  if String.eqb (pub_Algorithm k) "DSA" then
    match pub_Key k with
    | KeyDSAPublic _ => None
    | _ => Some (errors_New "invalid DSA public key")
    end
  else if String.eqb (pub_Algorithm k) "ECDSA" then
    match pub_Key k with
    | KeyECDSAPublic _ => None
    | _ => Some (errors_New "invalid ECDSA public key")
    end
  else if String.eqb (pub_Algorithm k) "RSA" then
    match pub_Key k with
    | KeyRSAPublic _ => None
    | _ => Some (errors_New "invalid DSA public key")
    end
  else Some (errors_New "invalid public key").

Definition validatePrivateKey (k : x509_PrivateKey) : option error :=
  if String.eqb (priv_Algorithm k) "DSA" then
    match priv_Key k with
    | KeyDSAPrivate _ => None
    | _ => Some (errors_New "invalid DSA private key")
    end
  else if String.eqb (priv_Algorithm k) "ECDSA" then
    match priv_Key k with
    | KeyECDSAPrivate _ => None
    | _ => Some (errors_New "invalid ECDSA private key")
    end
  else if String.eqb (priv_Algorithm k) "RSA" then
    match priv_Key k with
    | KeyRSAPrivate _ => None
    | _ => Some (errors_New "invalid RSA private key")
    end
  else Some (errors_New "invalid private key").

(** *** Verification *)

Definition verifyPKCS (signer : rsa_PublicKey) (function : Hash)
    (digest signature : list byte) : bool :=
  match rsa_VerifyPKCS1v15 lib signer function digest signature with
  | Some _ => false
  | None => true
  end.

Definition verifyPSS (signer : rsa_PublicKey) (function : Hash)
    (digest signature : list byte) (options : SigningOptions) : bool :=
  let config := decodePssOptions options in
  match rsa_VerifyPSS lib signer function digest signature config with
  | Some _ => false
  | None => true
  end.

Definition verifyRSA (signer : rsa_PublicKey) (function : Hash)
    (digest signature : list byte) (options : SigningOptions)
  : result bool :=
  if String.eqb (option_get options "type") "" then
    Ok (verifyPKCS signer function digest signature)
  else if String.eqb (option_get options "type") "pss" then
    Ok (verifyPSS signer function digest signature options)
  else Err (UnsupportedPaddingScheme (option_get options "type")).

Definition verifyDSA (signer : dsa_PublicKey) (digest signatureDer : list byte)
  : result bool :=
  match asn1_Unmarshal lib signatureDer with
  | Err err => Err err
  | Ok (signature, _) =>
      Ok (dsa_Verify lib signer digest (fst signature) (snd signature))
  end.

Definition verifyECDSA (signer : ecdsa_PublicKey)
    (digest signatureDer : list byte) : result bool :=
  match asn1_Unmarshal lib signatureDer with
  | Err err => Err err
  | Ok (signature, _) =>
      Ok (ecdsa_Verify lib signer digest (fst signature) (snd signature))
  end.

Definition executeVerify (signer : x509_PublicKey) (function : Hash)
    (digest signature : list byte) (options : SigningOptions)
  : go (result bool) :=
  r ← (if String.eqb (pub_Algorithm signer) "DSA" then
         k ← as_dsa_PublicKey (pub_Key signer);
         Done (verifyDSA k digest signature)
       else if String.eqb (pub_Algorithm signer) "ECDSA" then
         k ← as_ecdsa_PublicKey (pub_Key signer);
         Done (verifyECDSA k digest signature)
       else if String.eqb (pub_Algorithm signer) "RSA" then
         k ← as_rsa_PublicKey (pub_Key signer);
         Done (verifyRSA k function digest signature options)
       else Done (Err (errors_New "invalid public key")));
  match r with
  | Err err => Done (Err err)
  | Ok verified => Done (Ok verified)
  end.

(** *** Signing *)

Definition signPKCS (rnd : entropy) (signer : rsa_PrivateKey)
    (function : Hash) (digest : list byte) : result (list byte) :=
  match rsa_SignPKCS1v15 lib rnd signer function digest with
  | Err err => Err (errors_Wrap err "failed to sign message")
  | Ok signature => Ok signature
  end.

Definition signPSS (rnd : entropy) (signer : rsa_PrivateKey)
    (function : Hash) (digest : list byte) (options : SigningOptions)
  : result (list byte) :=
  let config := decodePssOptions options in
  match rsa_SignPSS lib rnd signer function digest config with
  | Err err => Err (errors_Wrap err "failed to sign message")
  | Ok signature => Ok signature
  end.

Definition signRSA (rnd : entropy) (signer : rsa_PrivateKey)
    (function : Hash) (digest : list byte) (options : SigningOptions)
  : result (list byte) :=
  if String.eqb (option_get options "type") "" then
    signPKCS rnd signer function digest
  else if String.eqb (option_get options "type") "pss" then
    signPSS rnd signer function digest options
  else Err (UnsupportedPaddingScheme (option_get options "type")).

Definition signDSA (rnd : entropy) (signer : dsa_PrivateKey)
    (digest : list byte) : result (list byte) :=
  match dsa_Sign lib rnd signer digest with
  | Err err => Err err
  | Ok (r, s) =>
      match asn1_Marshal lib (r, s) with
      | Err err => Err err
      | Ok encoded => Ok encoded
      end
  end.

Definition signECDSA (rnd : entropy) (signer : ecdsa_PrivateKey)
    (digest : list byte) : result (list byte) :=
  match ecdsa_Sign lib rnd signer digest with
  | Err err => Err err
  | Ok (r, s) =>
      match asn1_Marshal lib (r, s) with
      | Err err => Err err
      | Ok encoded => Ok encoded
      end
  end.

Definition executeSign (rnd : entropy) (signer : x509_PrivateKey)
    (function : Hash) (digest : list byte) (format : string)
    (options : SigningOptions) : go (result value) :=
  r ← (if String.eqb (priv_Algorithm signer) "DSA" then
         k ← as_dsa_PrivateKey (priv_Key signer);
         Done (signDSA rnd k digest)
       else if String.eqb (priv_Algorithm signer) "ECDSA" then
         k ← as_ecdsa_PrivateKey (priv_Key signer);
         Done (signECDSA rnd k digest)
       else if String.eqb (priv_Algorithm signer) "RSA" then
         k ← as_rsa_PrivateKey (priv_Key signer);
         Done (signRSA rnd k function digest options)
       else Done (Err (errors_New "invalid private key")));
  match r with
  | Err err => Done (Err err)
  | Ok signature =>
      match encodeBinary signature format with
      | Err err => Done (Err err)
      | Ok encoded => Done (Ok encoded)
      end
  end.

(** *** One-shot entry points *)

Definition checkKey (err : option error) : go unit :=
  match err with
  | Some e => throw e
  | None => Done tt
  end.

Definition prepareVerify (signer : x509_PublicKey)
    (functionEncoded : string) (plaintextEncoded signatureEncoded : value)
  : go (Hash * list byte * list byte) :=
  _ ← checkKey (validatePublicKey signer);
  function ← orThrow (decodeFunction lib functionEncoded);
  plaintext ← orThrow (decodePlaintext plaintextEncoded);
  hashed ← hashPlaintext functionEncoded plaintext;
  digest ← orThrow hashed;
  signature ← orThrow (decodeSignature signatureEncoded);
  Done (function, digest, signature).

Definition prepareVerifyString (signer : x509_PublicKey)
    (functionEncoded plaintextEncoded : string) (signatureEncoded : value)
  : go (Hash * list byte * list byte) :=
  _ ← checkKey (validatePublicKey signer);
  function ← orThrow (decodeFunction lib functionEncoded);
  let plaintext := list_byte_of_string plaintextEncoded in
  hashed ← hashPlaintext functionEncoded plaintext;
  digest ← orThrow hashed;
  signature ← orThrow (decodeSignature signatureEncoded);
  Done (function, digest, signature).

Definition prepareSign (signer : x509_PrivateKey)
    (functionEncoded : string) (plaintextEncoded : value)
  : go (Hash * list byte) :=
  _ ← checkKey (validatePrivateKey signer);
  function ← orThrow (decodeFunction lib functionEncoded);
  plaintext ← orThrow (decodePlaintext plaintextEncoded);
  hashed ← hashPlaintext functionEncoded plaintext;
  digest ← orThrow hashed;
  Done (function, digest).

Definition prepareSignString (signer : x509_PrivateKey)
    (functionEncoded plaintextEncoded : string) : go (Hash * list byte) :=
  _ ← checkKey (validatePrivateKey signer);
  function ← orThrow (decodeFunction lib functionEncoded);
  let plaintext := list_byte_of_string plaintextEncoded in
  hashed ← hashPlaintext functionEncoded plaintext;
  digest ← orThrow hashed;
  Done (function, digest).

(** The method [Verify] of [Crypto]. *)
Definition Crypto_Verify (signer : x509_PublicKey) (functionEncoded : string)
    (plaintextEncoded signatureEncoded : value) (options : SigningOptions)
  : go bool :=
  '(function, digest, signature) ←
    prepareVerify signer functionEncoded plaintextEncoded signatureEncoded;
  r ← executeVerify signer function digest signature options;
  orThrow r.

Definition Crypto_VerifyString (signer : x509_PublicKey)
    (functionEncoded plaintextEncoded : string) (signatureEncoded : value)
    (options : SigningOptions) : go bool :=
  '(function, digest, signature) ←
    prepareVerifyString signer functionEncoded plaintextEncoded
                        signatureEncoded;
  r ← executeVerify signer function digest signature options;
  orThrow r.

(** The method [Sign] of [Crypto]. *)
Definition Crypto_Sign (rnd : entropy) (signer : x509_PrivateKey)
    (functionEncoded : string) (plaintextEncoded : value) (format : string)
    (options : SigningOptions) : go value :=
  '(function, digest) ← prepareSign signer functionEncoded plaintextEncoded;
  r ← executeSign rnd signer function digest format options;
  orThrow r.

Definition Crypto_SignString (rnd : entropy) (signer : x509_PrivateKey)
    (functionEncoded plaintextEncoded : string) (format : string)
    (options : SigningOptions) : go value :=
  '(function, digest) ←
    prepareSignString signer functionEncoded plaintextEncoded;
  r ← executeSign rnd signer function digest format options;
  orThrow r.

(** *** Chunked signer and verifier *)

(** The two structs, without the [ctx] pointer.  Their methods have
    pointer receivers: a method takes the object and returns its outcome
    together with the object as the call leaves it. *)
Record Verifier : Type := {
  verifier_function : Hash;
  verifier_functionEncoded : string;
  verifier_options : SigningOptions;
  verifier_plaintext : list byte
}.

Record Signer : Type := {
  signer_function : Hash;
  signer_functionEncoded : string;
  signer_options : SigningOptions;
  signer_plaintext : list byte
}.

Definition CreateVerify (functionEncoded : string) (options : SigningOptions)
  : go Verifier :=
  function ← orThrow (decodeFunction lib functionEncoded);
  Done {| verifier_function := function;
          verifier_functionEncoded := functionEncoded;
          verifier_options := options;
          verifier_plaintext := [] |}.

Definition CreateSign (functionEncoded : string) (options : SigningOptions)
  : go Signer :=
  function ← orThrow (decodeFunction lib functionEncoded);
  Done {| signer_function := function;
          signer_functionEncoded := functionEncoded;
          signer_options := options;
          signer_plaintext := [] |}.

Definition Verifier_Update (verifier : Verifier) (additionEncoded : value)
    (format : string) : go unit * Verifier :=
  match decodeBinary additionEncoded format with
  | Err err => (throw err, verifier)
  | Ok addition =>
      (Done tt,
       {| verifier_function := verifier_function verifier;
          verifier_functionEncoded := verifier_functionEncoded verifier;
          verifier_options := verifier_options verifier;
          verifier_plaintext :=
            (verifier_plaintext verifier ++ addition)%list |})
  end.

Definition Verifier_Verify (verifier : Verifier) (signer : x509_PublicKey)
    (signatureEncoded : value) : go bool * Verifier :=
  (signature ← orThrow (decodeSignature signatureEncoded);
   hashed ← hashPlaintext (verifier_functionEncoded verifier)
                          (verifier_plaintext verifier);
   digest ← orThrow hashed;
   r ← executeVerify signer (verifier_function verifier) digest signature
                     (verifier_options verifier);
   orThrow r,
   verifier).

Definition Signer_Update (signer : Signer) (additionEncoded : value)
    (format : string) : go unit * Signer :=
  match decodeBinary additionEncoded format with
  | Err err => (throw err, signer)
  | Ok addition =>
      (Done tt,
       {| signer_function := signer_function signer;
          signer_functionEncoded := signer_functionEncoded signer;
          signer_options := signer_options signer;
          signer_plaintext := (signer_plaintext signer ++ addition)%list |})
  end.

Definition Signer_Sign (rnd : entropy) (signer : Signer) (k : x509_PrivateKey)
    (format : string) : go value * Signer :=
  (hashed ← hashPlaintext (signer_functionEncoded signer)
                          (signer_plaintext signer);
   digest ← orThrow hashed;
   r ← executeSign rnd k (signer_function signer) digest format
                   (signer_options signer);
   orThrow r,
   signer).

(** Successive [Update] calls, one per chunk, stopping at the first
    throw. *)
Fixpoint Signer_Updates (signer : Signer) (chunks : list (value * string))
  : go unit * Signer :=
  match chunks with
  | [] => (Done tt, signer)
  | (v, format) :: rest =>
      match Signer_Update signer v format with
      | (Done _, signer') => Signer_Updates signer' rest
      | (Panicked p, signer') => (Panicked p, signer')
      end
  end.

Fixpoint Verifier_Updates (verifier : Verifier) (chunks : list (value * string))
  : go unit * Verifier :=
  match chunks with
  | [] => (Done tt, verifier)
  | (v, format) :: rest =>
      match Verifier_Update verifier v format with
      | (Done _, verifier') => Verifier_Updates verifier' rest
      | (Panicked p, verifier') => (Panicked p, verifier')
      end
  end.

End Engine.

(** ** What the engine assumes of the libraries *)

(** The functional contracts of the signature primitives and of the
    ASN.1 codec.  [consistent] says which private-key values are
    consistent key pairs for the library: well-formed parameters, and a
    stored public half that is the one derived from the private scalar
    (the signing calls use the scalar only, so nothing can be promised
    for a record whose public half is something else).  For such a key
    a signature a signing call returns is accepted by the matching
    verification call on the same digest, with the public half of the
    key and the same parameters; and what [Marshal] produces,
    [Unmarshal] reads back with nothing left over. *)
Record PrimitivesSpec (lib : Primitives) (consistent : key -> Prop)
  : Prop := {
  pkcs_complete : forall rnd priv h d sig,
    consistent (KeyRSAPrivate priv) ->
    rsa_SignPKCS1v15 lib rnd priv h d = Ok sig ->
    rsa_VerifyPKCS1v15 lib (rsa_Public priv) h d sig = None;
  pss_complete : forall rnd priv h d o sig,
    consistent (KeyRSAPrivate priv) ->
    rsa_SignPSS lib rnd priv h d o = Ok sig ->
    rsa_VerifyPSS lib (rsa_Public priv) h d sig o = None;
  dsa_complete : forall rnd priv d r s,
    consistent (KeyDSAPrivate priv) ->
    dsa_Sign lib rnd priv d = Ok (r, s) ->
    dsa_Verify lib (dsa_Public priv) d r s = true;
  ecdsa_complete : forall rnd priv d r s,
    consistent (KeyECDSAPrivate priv) ->
    ecdsa_Sign lib rnd priv d = Ok (r, s) ->
    ecdsa_Verify lib (ecdsa_Public priv) d r s = true;
  asn1_roundtrip : forall rs der,
    asn1_Marshal lib rs = Ok der ->
    asn1_Unmarshal lib der = Ok (rs, [])
}.

(** An encoded signature that auto-detection reads back as what it
    encodes: base64 text must not also be valid hexadecimal text, which
    [decodeBinaryDetect] tries first. *)
Definition readsBack (format : string) (enc : value) : Prop :=
  format = "base64" ->
  forall t, enc = VString t -> is_ok (hex_DecodeString t) = false.

(** The two special salt lengths of [crypto/rsa], as its documentation
    gives them: [PSSSaltLengthAuto] makes the salt as long as possible
    when signing and auto-detected when verifying; with
    [PSSSaltLengthEqualsHash] the salt is as long as the digest. *)
Definition rsa_PSSSaltLengthAuto : Z := 0.
Definition rsa_PSSSaltLengthEqualsHash : Z := -1.

(** The public key that goes with a private key: same algorithm tag,
    and the public half of the key material. *)
Definition publicOf (k : x509_PrivateKey) : x509_PublicKey :=
  {| pub_Algorithm := priv_Algorithm k;
     pub_Key :=
       match priv_Key k with
       | KeyRSAPrivate p => KeyRSAPublic (rsa_Public p)
       | KeyDSAPrivate p => KeyDSAPublic (dsa_Public p)
       | KeyECDSAPrivate p => KeyECDSAPublic (ecdsa_Public p)
       | other => other
       end |}.

(** ** A small instance of the libraries

    A deterministic stand-in with no cryptographic content: a signature
    is the digest tagged with a key number, a digest is the plaintext
    itself, and the ASN.1 codec writes two bytes.  It shows the
    contracts above consistent and lets the engine run on examples. *)

Fixpoint bytes_eqb (a b : list byte) : bool :=
  match a, b with
  | [], [] => true
  | x :: a', y :: b' => byte_eqb x y && bytes_eqb a' b'
  | _, _ => false
  end.

Definition toy_verification_error : error :=
  lib_error "crypto/rsa: verification error".

Definition toy_sign (tag : Z) (d : list byte) : list byte :=
  byte_of_Z tag :: d.

Definition toy_check (tag : Z) (d sig : list byte) : option error :=
  if bytes_eqb sig (toy_sign tag d) then None else Some toy_verification_error.

Definition toy_small (z : Z) : bool := (0 <=? z) && (z <? 256).

Definition toyPrimitives : Primitives := {|
  decodeFunction name :=
    if String.eqb name "sha256" then Ok 5
    else Err (errors_New ("unsupported hash function: " ++ name));
  hasher_Digest name plaintext :=
    if String.eqb name "sha256" then Done (VBytes plaintext)
    else throw (errors_New ("unsupported hash function: " ++ name));
  rsa_SignPKCS1v15 rnd priv h d := Ok (toy_sign (rsa_N (rsa_Public priv)) d);
  rsa_VerifyPKCS1v15 pub h d sig := toy_check (rsa_N pub) d sig;
  rsa_SignPSS rnd priv h d o :=
    Ok (toy_sign (rsa_N (rsa_Public priv) + SaltLength o) d);
  rsa_VerifyPSS pub h d sig o := toy_check (rsa_N pub + SaltLength o) d sig;
  dsa_Sign rnd priv d :=
    Ok (dsa_Y (dsa_Public priv) mod 256, Z.of_nat (length d) mod 256);
  dsa_Verify pub d r s :=
    (r =? dsa_Y pub mod 256) && (s =? Z.of_nat (length d) mod 256);
  ecdsa_Sign rnd priv d :=
    Ok (ecdsa_X (ecdsa_Public priv) mod 256, Z.of_nat (length d) mod 256);
  ecdsa_Verify pub d r s :=
    (r =? ecdsa_X pub mod 256) && (s =? Z.of_nat (length d) mod 256);
  asn1_Marshal rs :=
    if toy_small (fst rs) && toy_small (snd rs)
    then Ok [byte_of_Z (fst rs); byte_of_Z (snd rs)]
    else Err (lib_error "asn1: structure error");
  asn1_Unmarshal der :=
    match der with
    | r :: s :: rest => Ok ((byte_to_Z r, byte_to_Z s), rest)
    | _ => Err (lib_error "asn1: syntax error: truncated sequence")
    end
|}.

(** For the small instance every key value counts as consistent. *)
Definition toy_consistent (k : key) : Prop := True.

Definition toy_rnd : entropy := fun _ => x00.

Definition toy_rsa_key : rsa_PrivateKey :=
  {| rsa_Public := {| rsa_N := 35; rsa_E := 5 |};
     rsa_D := 5; rsa_Primes := [5; 7] |}.

Definition toy_dsa_key : dsa_PrivateKey :=
  {| dsa_Public := {| dsa_P := 23; dsa_Q := 11; dsa_G := 4; dsa_Y := 8 |};
     dsa_X := 7 |}.


Definition toy_digest : list byte := list_byte_of_string "digest".

Definition bytes_of_Zs (l : list Z) : list byte := map byte_of_Z l.

(** The contexts [Update] leaves: the same object with [addition]
    appended to its plaintext. *)
Definition Signer_append (signer : Signer) (addition : list byte) : Signer :=
  {| signer_function := signer_function signer;
     signer_functionEncoded := signer_functionEncoded signer;
     signer_options := signer_options signer;
     signer_plaintext := (signer_plaintext signer ++ addition)%list |}.

Definition Verifier_append (verifier : Verifier) (addition : list byte)
  : Verifier :=
  {| verifier_function := verifier_function verifier;
     verifier_functionEncoded := verifier_functionEncoded verifier;
     verifier_options := verifier_options verifier;
     verifier_plaintext := (verifier_plaintext verifier ++ addition)%list |}.


(** Each chunk, decoded under its format, is the matching part. *)
Definition decodeTo (chunks : list (value * string))
    (parts : list (list byte)) : Prop :=
  Forall2 (fun c b => decodeBinary (fst c) (snd c) = Ok b) chunks parts.

Definition toy_signer : Signer :=
  {| signer_function := 5; signer_functionEncoded := "sha256";
     signer_options := ∅; signer_plaintext := [] |}.

Definition toy_verifier : Verifier :=
  {| verifier_function := 5; verifier_functionEncoded := "sha256";
     verifier_options := ∅; verifier_plaintext := [] |}.

(** Decimal digits [ds] (most significant first) as text, and the
    number they write. *)
Definition decimalDigits (ds : list Z) : list byte :=
  map (fun d => byte_of_Z (48 + d)) ds.

Definition decimalValue (ds : list Z) : Z :=
  fold_left (fun n d => n * 10 + d) ds 0.

Definition isDigit (d : Z) : Prop := 0 <= d <= 9.

(** ** Scripts over the chunked objects *)

(** A script that creates a signer, feeds it the chunks one [Update]
    at a time and finalizes; a throw anywhere ends the script. *)
Definition signChunked (lib : Primitives) (rnd : entropy)
    (functionEncoded : string) (options : SigningOptions)
    (chunks : list (value * string)) (k : x509_PrivateKey) (format : string)
  : go value :=
  signer ← CreateSign lib functionEncoded options;
  match Signer_Updates signer chunks with
  | (Done _, signer') => fst (Signer_Sign lib rnd signer' k format)
  | (Panicked p, _) => Panicked p
  end.

Definition verifyChunked (lib : Primitives)
    (functionEncoded : string) (options : SigningOptions)
    (chunks : list (value * string)) (k : x509_PublicKey)
    (signatureEncoded : value) : go bool :=
  verifier ← CreateVerify lib functionEncoded options;
  match Verifier_Updates verifier chunks with
  | (Done _, verifier') =>
      fst (Verifier_Verify lib verifier' k signatureEncoded)
  | (Panicked p, _) => Panicked p
  end.

(** The hasher never fails a type assertion of its own. *)
Definition hasherNoAssertionPanic (lib : Primitives) : Prop :=
  forall name plaintext,
    hasher_Digest lib name plaintext <> Panicked TypeAssertionPanic.

Definition isHexChar (c : byte) : bool :=
  match fromHexChar c with Some _ => true | None => false end.

Definition notNewline (c : byte) : bool := negb (isNewline c).

Definition isDigitByte (c : byte) : bool :=
  (48 <=? byte_to_Z c) && (byte_to_Z c <=? 57).

Definition isBase64Digit (c : byte) : bool :=
  match decodeMap c with Some _ => true | None => false end.

(** * Properties *)

(** ** Bytes and bit arithmetic *)

Lemma byte_to_Z_range (b : byte) : 0 <= byte_to_Z b < 256.
Proof.
  unfold byte_to_Z. pose proof (Byte.to_N_bounded b) as Hb.
  lia.
Qed.

Lemma byte_of_to_Z (b : byte) : byte_of_Z (byte_to_Z b) = b.
Proof.
  unfold byte_of_Z. rewrite Z.mod_small by apply byte_to_Z_range.
  unfold byte_to_Z. rewrite N2Z.id, Byte.of_to_N. reflexivity.
Qed.

Lemma byte_of_Z_mod (z : Z) : byte_of_Z (z mod 256) = byte_of_Z z.
Proof. unfold byte_of_Z. rewrite Z.mod_mod by lia. reflexivity. Qed.

Lemma byte_of_Z_eq (z : Z) (b : byte) :
  z mod 256 = byte_to_Z b -> byte_of_Z z = b.
Proof.
  intros H. rewrite <- byte_of_Z_mod, H. apply byte_of_to_Z.
Qed.

Lemma byte_eqb_refl (b : byte) : byte_eqb b b = true.
Proof. unfold byte_eqb. apply Byte.byte_dec_lb. reflexivity. Qed.

Lemma byte_eqb_eq (a b : byte) : byte_eqb a b = true -> a = b.
Proof. unfold byte_eqb. apply Byte.byte_dec_bl. Qed.

(** [x | y] is [x + y] when the bits of [y] lie below those of [x]. *)
Lemma lor_disjoint_add (x y k : Z) :
  0 <= k -> x mod 2 ^ k = 0 -> 0 <= y < 2 ^ k -> Z.lor x y = x + y.
Proof.
  intros Hk Hx Hy.
  assert (Hland : Z.land x y = 0).
  { apply Z.bits_inj'. intros n Hn.
    rewrite Z.land_spec, Z.bits_0.
    destruct (Z.ltb_spec n k) as [Hlt | Hge].
    - assert (Hb : Z.testbit x n = false).
      { rewrite <- (Z.mod_pow2_bits_low x k n) by lia.
        rewrite Hx. apply Z.bits_0. }
      rewrite Hb. reflexivity.
    - assert (Hb : Z.testbit y n = false).
      { rewrite <- (Z.mod_small y (2 ^ k)) by lia.
        apply Z.mod_pow2_bits_high. lia. }
      rewrite Hb. apply Bool.andb_false_r. }
  rewrite <- Z.lxor_lor by exact Hland.
  symmetry. apply Z.add_nocarry_lxor. exact Hland.
Qed.

Lemma land_mask (x k : Z) : 0 <= k -> Z.land x (2 ^ k - 1) = x mod 2 ^ k.
Proof.
  intros Hk. rewrite <- Z.land_ones by exact Hk.
  rewrite Z.ones_equiv, Z.sub_1_r. reflexivity.
Qed.

Ltac arith_bits :=
  change 15 with (2 ^ 4 - 1); change 63 with (2 ^ 6 - 1);
  rewrite ?land_mask by lia;
  rewrite ?Z.shiftr_div_pow2, ?Z.shiftl_mul_pow2 by lia;
  change (2 ^ 4) with 16; change (2 ^ 6) with 64; change (2 ^ 8) with 256;
  change (2 ^ 12) with 4096; change (2 ^ 16) with 65536;
  change (2 ^ 18) with 262144.

Ltac divmod := Z.div_mod_to_equations; lia.

(** ** Hexadecimal text *)

Lemma fromHexChar_hexdigit (i : Z) :
  0 <= i < 16 -> fromHexChar (hexdigit i) = Some i.
Proof.
  intros Hi.
  assert (Hc : i = 0 \/ i = 1 \/ i = 2 \/ i = 3 \/ i = 4 \/ i = 5 \/ i = 6 \/
               i = 7 \/ i = 8 \/ i = 9 \/ i = 10 \/ i = 11 \/ i = 12 \/
               i = 13 \/ i = 14 \/ i = 15) by lia.
  repeat (destruct Hc as [-> | Hc]; [reflexivity |]).
  subst i. reflexivity.
Qed.

Lemma hex_pair (v : byte) :
  fromHexChar (hexdigit (Z.shiftr (byte_to_Z v) 4))
    = Some (Z.shiftr (byte_to_Z v) 4)
  /\ fromHexChar (hexdigit (Z.land (byte_to_Z v) 15))
    = Some (Z.land (byte_to_Z v) 15)
  /\ byte_of_Z (Z.lor (Z.shiftl (Z.shiftr (byte_to_Z v) 4) 4)
                      (Z.land (byte_to_Z v) 15)) = v.
Proof.
  pose proof (byte_to_Z_range v) as Hv.
  set (n := byte_to_Z v) in *.
  repeat split.
  - apply fromHexChar_hexdigit. arith_bits. divmod.
  - apply fromHexChar_hexdigit. arith_bits. divmod.
  - apply byte_of_Z_eq. fold n. arith_bits.
    rewrite (lor_disjoint_add _ _ 4) by (change (2 ^ 4) with 16; divmod).
    divmod.
Qed.

Lemma hex_Decode_Encode (src : list byte) :
  hex_Decode (hex_Encode src) = Ok src.
Proof.
  induction src as [| v src IH]; [reflexivity |].
  destruct (hex_pair v) as (Hhi & Hlo & Hv).
  unfold hex_Encode in *. cbn [flat_map app hex_Decode].
  rewrite Hhi, Hlo, IH, Hv. reflexivity.
Qed.

Lemma hex_round_trip (src : list byte) :
  hex_DecodeString (hex_EncodeToString src) = Ok src.
Proof.
  unfold hex_DecodeString, hex_EncodeToString.
  rewrite list_byte_of_string_of_list_byte. apply hex_Decode_Encode.
Qed.

(** ** Base64 text *)

Lemma decodeMap_b64digit (i : Z) :
  0 <= i < 64 -> decodeMap (b64digit i) = Some i.
Proof.
  intros Hi. rewrite <- (Z2Nat.id i) by lia.
  assert (Hn : (Z.to_nat i < 64)%nat) by lia.
  clear Hi. revert Hn. generalize (Z.to_nat i). clear i. intros n Hn.
  do 64 (destruct n as [| n]; [reflexivity |]). lia.
Qed.

Lemma sextet_range (x : Z) : 0 <= Z.land x 63 < 64.
Proof. arith_bits. divmod. Qed.

Lemma base64_decode_digits (s0 s1 s2 s3 : Z) (rest : list byte) :
  0 <= s0 < 64 -> 0 <= s1 < 64 -> 0 <= s2 < 64 -> 0 <= s3 < 64 ->
  base64_decode [] (b64digit s0 :: b64digit s1 :: b64digit s2
                      :: b64digit s3 :: rest)
  = match base64_decode [] rest with
    | Ok tl => Ok (quantumBytes [s0; s1; s2; s3] ++ tl)%list
    | Err e => Err e
    end.
Proof.
  intros H0 H1 H2 H3. cbn [base64_decode].
  rewrite !decodeMap_b64digit by assumption. reflexivity.
Qed.

Lemma base64_decode_pad1 (s0 s1 s2 : Z) :
  0 <= s0 < 64 -> 0 <= s1 < 64 -> 0 <= s2 < 64 ->
  base64_decode [] [b64digit s0; b64digit s1; b64digit s2; padChar]
  = Ok (quantumBytes [s0; s1; s2]).
Proof.
  intros H0 H1 H2. cbn [base64_decode].
  rewrite !decodeMap_b64digit by assumption. reflexivity.
Qed.

Lemma base64_decode_pad2 (s0 s1 : Z) :
  0 <= s0 < 64 -> 0 <= s1 < 64 ->
  base64_decode [] [b64digit s0; b64digit s1; padChar; padChar]
  = Ok (quantumBytes [s0; s1]).
Proof.
  intros H0 H1. cbn [base64_decode].
  rewrite !decodeMap_b64digit by assumption. reflexivity.
Qed.

(** The three bytes packed into [val] come back from its four digits. *)
Lemma quantum3 (a b c : byte) :
  let val := Z.lor (Z.lor (Z.shiftl (byte_to_Z a) 16)
                          (Z.shiftl (byte_to_Z b) 8))
                   (byte_to_Z c) in
  quantumBytes [Z.land (Z.shiftr val 18) 63; Z.land (Z.shiftr val 12) 63;
                Z.land (Z.shiftr val 6) 63; Z.land val 63]
  = [a; b; c].
Proof.
  intros val.
  pose proof (byte_to_Z_range a) as Ha.
  pose proof (byte_to_Z_range b) as Hb.
  pose proof (byte_to_Z_range c) as Hc.
  assert (Hval : val = byte_to_Z a * 65536 + byte_to_Z b * 256 + byte_to_Z c).
  { subst val. arith_bits.
    rewrite (lor_disjoint_add (_ * 65536) (_ * 256) 16)
      by (change (2 ^ 16) with 65536; divmod).
    rewrite (lor_disjoint_add _ _ 8) by (change (2 ^ 8) with 256; divmod).
    reflexivity. }
  clearbody val.
  unfold quantumBytes. cbn [nth length Nat.sub firstn].
  arith_bits.
  rewrite (lor_disjoint_add (_ * 262144) (_ * 4096) 18)
    by (change (2 ^ 18) with 262144; divmod).
  rewrite (lor_disjoint_add _ (_ * 64) 12)
    by (change (2 ^ 12) with 4096; divmod).
  rewrite (lor_disjoint_add _ _ 6) by (change (2 ^ 6) with 64; divmod).
  f_equal; [| f_equal; [| f_equal]]; apply byte_of_Z_eq; divmod.
Qed.

Lemma quantum2 (a b : byte) :
  let val := Z.lor (Z.shiftl (byte_to_Z a) 16) (Z.shiftl (byte_to_Z b) 8) in
  quantumBytes [Z.land (Z.shiftr val 18) 63; Z.land (Z.shiftr val 12) 63;
                Z.land (Z.shiftr val 6) 63]
  = [a; b].
Proof.
  intros val.
  pose proof (byte_to_Z_range a) as Ha.
  pose proof (byte_to_Z_range b) as Hb.
  assert (Hval : val = byte_to_Z a * 65536 + byte_to_Z b * 256).
  { subst val. arith_bits.
    rewrite (lor_disjoint_add (_ * 65536) (_ * 256) 16)
      by (change (2 ^ 16) with 65536; divmod).
    reflexivity. }
  clearbody val.
  unfold quantumBytes. cbn [nth length Nat.sub firstn].
  rewrite Z.lor_0_r. arith_bits.
  rewrite (lor_disjoint_add (_ * 262144) (_ * 4096) 18)
    by (change (2 ^ 18) with 262144; divmod).
  rewrite (lor_disjoint_add _ (_ * 64) 12)
    by (change (2 ^ 12) with 4096; divmod).
  f_equal; [| f_equal]; apply byte_of_Z_eq; divmod.
Qed.

Lemma quantum1 (a : byte) :
  let val := Z.shiftl (byte_to_Z a) 16 in
  quantumBytes [Z.land (Z.shiftr val 18) 63; Z.land (Z.shiftr val 12) 63]
  = [a].
Proof.
  intros val.
  pose proof (byte_to_Z_range a) as Ha.
  assert (Hval : val = byte_to_Z a * 65536).
  { subst val. arith_bits. reflexivity. }
  clearbody val.
  unfold quantumBytes. cbn [nth length Nat.sub firstn].
  change (Z.shiftl 0 6) with 0. rewrite !Z.lor_0_r. arith_bits.
  rewrite (lor_disjoint_add (_ * 262144) (_ * 4096) 18)
    by (change (2 ^ 18) with 262144; divmod).
  f_equal; apply byte_of_Z_eq; divmod.
Qed.

(** Induction three bytes at a time. *)
Lemma list_ind3 {A} (P : list A -> Prop) :
  P [] -> (forall a, P [a]) -> (forall a b, P [a; b]) ->
  (forall a b c l, P l -> P (a :: b :: c :: l)) ->
  forall l, P l.
Proof.
  intros H0 H1 H2 H3.
  assert (Hall : forall l, P l /\ (forall a, P (a :: l))
                              /\ (forall a b, P (a :: b :: l))).
  { induction l as [| c l (IH0 & IH1 & IH2)]; [auto |].
    repeat split; auto. }
  intros l. apply Hall.
Qed.

Lemma base64_Decode_Encode (src : list byte) :
  base64_Decode (base64_Encode src) = Ok src.
Proof.
  unfold base64_Decode.
  induction src as [| a | a b | a b c rest IH] using list_ind3.
  - reflexivity.
  - cbn [base64_Encode].
    rewrite base64_decode_pad2 by apply sextet_range.
    f_equal. apply quantum1.
  - cbn [base64_Encode].
    rewrite base64_decode_pad1 by apply sextet_range.
    f_equal. apply quantum2.
  - cbn [base64_Encode].
    rewrite base64_decode_digits by apply sextet_range.
    rewrite IH. f_equal.
    rewrite quantum3. reflexivity.
Qed.

Lemma base64_round_trip (src : list byte) :
  base64_DecodeString (base64_EncodeToString src) = Ok src.
Proof.
  unfold base64_DecodeString, base64_EncodeToString.
  rewrite list_byte_of_string_of_list_byte. apply base64_Decode_Encode.
Qed.

(** ** The codecs on known vectors *)

Example hex_vectors :
  hex_EncodeToString (list_byte_of_string "k6!") = "6b3621"
  /\ hex_DecodeString "DeadBeef" = Ok (bytes_of_Zs [222; 173; 190; 239])
  /\ hex_DecodeString "abc" = Err hex_ErrLength
  /\ hex_DecodeString "abz" = Err (hex_InvalidByteError "z")
  /\ hex_DecodeString "" = Ok [].
Proof. vm_compute. repeat split; reflexivity. Qed.

Example base64_vectors :
  base64_EncodeToString (list_byte_of_string "f") = "Zg=="
  /\ base64_EncodeToString (list_byte_of_string "fo") = "Zm8="
  /\ base64_EncodeToString (list_byte_of_string "foo") = "Zm9v"
  /\ base64_EncodeToString (list_byte_of_string "foobar") = "Zm9vYmFy"
  /\ base64_EncodeToString (bytes_of_Zs [251; 255]) = "+/8="
  /\ base64_DecodeString "Zm9vYmE=" = Ok (list_byte_of_string "fooba")
  /\ base64_DecodeString "Zg==" = Ok (list_byte_of_string "f")
  /\ base64_DecodeString "Zg=" = Err base64_CorruptInputError
  /\ base64_DecodeString "Zg" = Err base64_CorruptInputError
  /\ base64_DecodeString "Zg==Zg==" = Err base64_CorruptInputError
  /\ base64_DecodeString "" = Ok [].
Proof. vm_compute. repeat split; reflexivity. Qed.

(** ** The codec of [code.go] *)

Lemma decodeBinary_known (v : value) (f : string) :
  f <> "" -> decodeBinary v f = decodeBinaryKnown v f.
Proof.
  intros Hf. unfold decodeBinary.
  destruct (String.eqb_spec f ""); [contradiction | reflexivity].
Qed.

Lemma decodeBinary_bytes (b : list byte) (f : string) :
  f = "" \/ f = "binary" -> decodeBinary (VBytes b) f = Ok b.
Proof. intros [-> | ->]; reflexivity. Qed.

(** C5. Codec round trip: for every byte sequence [b], the empty one
    included, and every format [f] among "binary", "hex" and "base64",
    [encodeBinary b f] succeeds and decoding its result with the same
    explicit format gives [b] back. *)
Theorem codec_round_trip (b : list byte) (f : string) :
  f = "binary" \/ f = "hex" \/ f = "base64" ->
  exists v, encodeBinary b f = Ok v /\ decodeBinary v f = Ok b.
Proof.
  intros [-> | [-> | ->]].
  - exists (VBytes b). split; reflexivity.
  - exists (VString (hex_EncodeToString b)). split; [reflexivity |].
    rewrite decodeBinary_known by discriminate.
    cbn. apply hex_round_trip.
  - exists (VString (base64_EncodeToString b)). split; [reflexivity |].
    rewrite decodeBinary_known by discriminate.
    cbn. apply base64_round_trip.
Qed.

Lemma codec_round_trip_witness :
  exists v,
    encodeBinary (list_byte_of_string "hello") "base64" = Ok v
    /\ decodeBinary v "base64" = Ok (list_byte_of_string "hello").
Proof.
  apply (codec_round_trip (list_byte_of_string "hello") "base64").
  right. right. reflexivity.
Defined.

(** C9. Codec format errors: decoding with a non-empty format other than
    "binary", "hex" and "base64" fails with [UnsupportedEncoding] for
    every input; encoding with a format other than the empty string,
    "binary", "hex" and "base64" fails with [UnsupportedEncoding] for
    every byte sequence; encoding with the empty format and with
    "binary" both return the bytes unchanged. *)
Theorem codec_format_errors :
  (forall (v : value) (f : string),
      f <> "" -> f <> "binary" -> f <> "hex" -> f <> "base64" ->
      decodeBinary v f = Err (UnsupportedEncoding f))
  /\ (forall (b : list byte) (f : string),
         f <> "" -> f <> "binary" -> f <> "hex" -> f <> "base64" ->
         encodeBinary b f = Err (UnsupportedEncoding f))
  /\ (forall b : list byte,
         encodeBinary b "" = Ok (VBytes b)
         /\ encodeBinary b "binary" = Ok (VBytes b)).
Proof.
  repeat split.
  - intros v f H0 H1 H2 H3. rewrite decodeBinary_known by assumption.
    unfold decodeBinaryKnown.
    destruct (String.eqb_spec f "binary"); [contradiction |].
    destruct (String.eqb_spec f "hex"); [contradiction |].
    destruct (String.eqb_spec f "base64"); [contradiction |].
    reflexivity.
  - intros b f H0 H1 H2 H3. unfold encodeBinary.
    destruct (String.eqb_spec f ""); [contradiction |].
    destruct (String.eqb_spec f "binary"); [contradiction |].
    destruct (String.eqb_spec f "hex"); [contradiction |].
    destruct (String.eqb_spec f "base64"); [contradiction |].
    reflexivity.
Qed.

Lemma codec_format_errors_witness :
  decodeBinary (VString "6869") "utf8" = Err (UnsupportedEncoding "utf8")
  /\ encodeBinary (list_byte_of_string "hi") "utf8"
     = Err (UnsupportedEncoding "utf8").
Proof.
  split.
  - apply (proj1 codec_format_errors); discriminate.
  - apply (proj1 (proj2 codec_format_errors)); discriminate.
Defined.

(** C4. Auto-detect priority: with the empty format, [decodeBinary]
    tries the input as a byte array, then as hexadecimal text, then as
    base64 text, and returns the first success; it fails, with
    [UnrecognizedEncoding], exactly when the three fail.  So a string
    that is valid hexadecimal decodes as explicit "hex" decoding does,
    whatever base64 makes of it ("deadbeef" gives the four bytes de ad
    be ef, not the six bytes base64 reads in it), and a byte array
    decodes to itself. *)
Theorem auto_detect_priority :
  (forall (v : value) (b : list byte),
      decodeBytes v = Ok b -> decodeBinary v "" = Ok b)
  /\ (forall (v : value) (b : list byte),
         is_ok (decodeBytes v) = false -> decodeHex v = Ok b ->
         decodeBinary v "" = Ok b)
  /\ (forall (v : value) (b : list byte),
         is_ok (decodeBytes v) = false -> is_ok (decodeHex v) = false ->
         decodeBase64 v = Ok b -> decodeBinary v "" = Ok b)
  /\ (forall (v : value) (e : error),
         decodeBinary v "" = Err e <->
         e = UnrecognizedEncoding
         /\ is_ok (decodeBytes v) = false
         /\ is_ok (decodeHex v) = false
         /\ is_ok (decodeBase64 v) = false)
  /\ (forall (s : string) (b : list byte),
         hex_DecodeString s = Ok b ->
         decodeBinary (VString s) "" = decodeBinary (VString s) "hex")
  /\ decodeBinary (VString "deadbeef") ""
     = Ok (bytes_of_Zs [222; 173; 190; 239])
  /\ decodeBinary (VString "deadbeef") "base64"
     = Ok (bytes_of_Zs [117; 230; 157; 109; 231; 159])
  /\ (forall b : list byte, decodeBinary (VBytes b) "" = Ok b).
Proof.
  unfold decodeBinary, decodeBinaryDetect. cbn [String.eqb negb].
  repeat split.
  - intros v b ->. reflexivity.
  - intros v b Hb ->. destruct (decodeBytes v); [discriminate | reflexivity].
  - intros v b Hb Hh ->.
    destruct (decodeBytes v); [discriminate |].
    destruct (decodeHex v); [discriminate | reflexivity].
  - destruct (decodeBytes v); [discriminate |].
    destruct (decodeHex v); [discriminate |].
    destruct (decodeBase64 v); [discriminate | congruence].
  - destruct (decodeBytes v); [discriminate | reflexivity].
  - destruct (decodeBytes v); [discriminate |].
    destruct (decodeHex v); [discriminate | reflexivity].
  - destruct (decodeBytes v); [discriminate |].
    destruct (decodeHex v); [discriminate |].
    destruct (decodeBase64 v); [discriminate | reflexivity].
  - intros (-> & Hb & Hh & H64).
    destruct (decodeBytes v); [discriminate |].
    destruct (decodeHex v); [discriminate |].
    destruct (decodeBase64 v); [discriminate | reflexivity].
  - intros s b Hs. cbn. rewrite Hs. reflexivity.
Qed.

Lemma auto_detect_priority_witness :
  decodeBinary (VString "deadbeef") "" = decodeBinary (VString "deadbeef") "hex"
  /\ decodeBinary (VString "aGk=") "" = Ok (list_byte_of_string "hi")
  /\ decodeBinary (VString "zz") "" = Err UnrecognizedEncoding.
Proof.
  destruct auto_detect_priority as (_ & _ & H64 & Hfail & Hhex & _).
  split; [| split].
  - apply (Hhex "deadbeef" (bytes_of_Zs [222; 173; 190; 239])).
    vm_compute. reflexivity.
  - apply H64; vm_compute; reflexivity.
  - apply Hfail. repeat split; vm_compute; reflexivity.
Defined.

(** ** The small instance meets the contracts *)

Lemma byte_to_of_Z (z : Z) : 0 <= z < 256 -> byte_to_Z (byte_of_Z z) = z.
Proof.
  intros Hz. unfold byte_of_Z, byte_to_Z.
  rewrite Z.mod_small by exact Hz.
  pose proof (Byte.to_of_N_option_map (Z.to_N z)) as Hmap.
  destruct (N.leb_spec (Z.to_N z) 255) as [_ | Hbig]; [| lia].
  destruct (Byte.of_N (Z.to_N z)) as [b |]; [| discriminate].
  cbn in Hmap. injection Hmap as ->. lia.
Qed.

Lemma bytes_eqb_refl (l : list byte) : bytes_eqb l l = true.
Proof.
  induction l as [| x l IH]; [reflexivity |].
  cbn. rewrite byte_eqb_refl, IH. reflexivity.
Qed.

Lemma toy_check_sign (tag : Z) (d : list byte) :
  toy_check tag d (toy_sign tag d) = None.
Proof. unfold toy_check. rewrite bytes_eqb_refl. reflexivity. Qed.

Lemma toyPrimitives_spec : PrimitivesSpec toyPrimitives toy_consistent.
Proof.
  split; cbn.
  - intros rnd priv h d sig _ [= <-]. apply toy_check_sign.
  - intros rnd priv h d o sig _ [= <-]. apply toy_check_sign.
  - intros rnd priv d r s _ [= <- <-]. rewrite !Z.eqb_refl. reflexivity.
  - intros rnd priv d r s _ [= <- <-]. rewrite !Z.eqb_refl. reflexivity.
  - intros [r s] der. cbn.
    destruct (toy_small r) eqn:Hr; [| discriminate].
    destruct (toy_small s) eqn:Hs; [| discriminate].
    cbn. intros [= <-].
    unfold toy_small in Hr, Hs.
    rewrite !byte_to_of_Z by lia. reflexivity.
Qed.

(** ** RSA padding dispatch *)

Lemma option_get_unset (options : SigningOptions) (k : string) :
  options !! k = None -> option_get options k = "".
Proof. unfold option_get. intros ->. reflexivity. Qed.

Lemma option_get_set (options : SigningOptions) (k v : string) :
  options !! k = Some v -> option_get options k = v.
Proof. unfold option_get. intros ->. reflexivity. Qed.

Section Dispatch.

Context (lib : Primitives).

Lemma signRSA_pkcs rnd priv function digest (options : SigningOptions) :
  option_get options "type" = "" ->
  signRSA lib rnd priv function digest options
  = signPKCS lib rnd priv function digest.
Proof. unfold signRSA. intros ->. reflexivity. Qed.

Lemma signRSA_pss rnd priv function digest (options : SigningOptions) :
  option_get options "type" = "pss" ->
  signRSA lib rnd priv function digest options
  = signPSS lib rnd priv function digest options.
Proof. unfold signRSA. intros ->. reflexivity. Qed.

Lemma signRSA_other rnd priv function digest (options : SigningOptions) :
  option_get options "type" <> "" -> option_get options "type" <> "pss" ->
  signRSA lib rnd priv function digest options
  = Err (UnsupportedPaddingScheme (option_get options "type")).
Proof.
  unfold signRSA. intros H1 H2.
  destruct (String.eqb_spec (option_get options "type") ""); [contradiction |].
  destruct (String.eqb_spec (option_get options "type") "pss");
    [contradiction | reflexivity].
Qed.

Lemma verifyRSA_pkcs pub function digest signature (options : SigningOptions) :
  option_get options "type" = "" ->
  verifyRSA lib pub function digest signature options
  = Ok (verifyPKCS lib pub function digest signature).
Proof. unfold verifyRSA. intros ->. reflexivity. Qed.

Lemma verifyRSA_pss pub function digest signature (options : SigningOptions) :
  option_get options "type" = "pss" ->
  verifyRSA lib pub function digest signature options
  = Ok (verifyPSS lib pub function digest signature options).
Proof. unfold verifyRSA. intros ->. reflexivity. Qed.

Lemma verifyRSA_other pub function digest signature (options : SigningOptions) :
  option_get options "type" <> "" -> option_get options "type" <> "pss" ->
  verifyRSA lib pub function digest signature options
  = Err (UnsupportedPaddingScheme (option_get options "type")).
Proof.
  unfold verifyRSA. intros H1 H2.
  destruct (String.eqb_spec (option_get options "type") ""); [contradiction |].
  destruct (String.eqb_spec (option_get options "type") "pss");
    [contradiction | reflexivity].
Qed.

End Dispatch.

(** C2, as amended.  RSA padding dispatch: for an RSA key, [signRSA] and
    [verifyRSA] perform PKCS#1 v1.5 when [options.type] is unset or the
    empty string, perform PSS when it is "pss", and fail with
    [UnsupportedPaddingScheme] for every other value, "pkcs1v15"
    included. *)
Theorem rsa_padding_dispatch (lib : Primitives) (rnd : entropy)
    (priv : rsa_PrivateKey) (pub : rsa_PublicKey) (function : Hash)
    (digest signature : list byte) (options : SigningOptions) :
  (options !! "type" = None \/ options !! "type" = Some "" ->
   signRSA lib rnd priv function digest options
   = signPKCS lib rnd priv function digest
   /\ verifyRSA lib pub function digest signature options
      = Ok (verifyPKCS lib pub function digest signature))
  /\ (options !! "type" = Some "pss" ->
      signRSA lib rnd priv function digest options
      = signPSS lib rnd priv function digest options
      /\ verifyRSA lib pub function digest signature options
         = Ok (verifyPSS lib pub function digest signature options))
  /\ (forall t : string,
         options !! "type" = Some t -> t <> "" -> t <> "pss" ->
         signRSA lib rnd priv function digest options
         = Err (UnsupportedPaddingScheme t)
         /\ verifyRSA lib pub function digest signature options
            = Err (UnsupportedPaddingScheme t))
  /\ (options !! "type" = Some "pkcs1v15" ->
      signRSA lib rnd priv function digest options
      = Err (UnsupportedPaddingScheme "pkcs1v15")
      /\ verifyRSA lib pub function digest signature options
         = Err (UnsupportedPaddingScheme "pkcs1v15")).
Proof.
  assert (Hother : forall t : string,
             options !! "type" = Some t -> t <> "" -> t <> "pss" ->
             signRSA lib rnd priv function digest options
             = Err (UnsupportedPaddingScheme t)
             /\ verifyRSA lib pub function digest signature options
                = Err (UnsupportedPaddingScheme t)).
  { intros t Ht H1 H2. apply option_get_set in Ht.
    rewrite signRSA_other, verifyRSA_other by (rewrite Ht; assumption).
    rewrite Ht. split; reflexivity. }
  split; [| split; [| split]].
  - intros Ht.
    assert (Hg : option_get options "type" = "").
    { destruct Ht as [Ht | Ht];
        [apply option_get_unset | apply option_get_set]; exact Ht. }
    split; [apply signRSA_pkcs | apply verifyRSA_pkcs]; exact Hg.
  - intros Ht. apply option_get_set in Ht.
    split; [apply signRSA_pss | apply verifyRSA_pss]; exact Ht.
  - exact Hother.
  - intros Ht. apply Hother; [exact Ht | discriminate | discriminate].
Qed.

Lemma rsa_padding_dispatch_witness :
  signRSA toyPrimitives toy_rnd toy_rsa_key 5 toy_digest ∅
  = signPKCS toyPrimitives toy_rnd toy_rsa_key 5 toy_digest
  /\ signRSA toyPrimitives toy_rnd toy_rsa_key 5 toy_digest
       {[ "type" := "pss" ]}
     = signPSS toyPrimitives toy_rnd toy_rsa_key 5 toy_digest
         {[ "type" := "pss" ]}
  /\ verifyRSA toyPrimitives (rsa_Public toy_rsa_key) 5 toy_digest
       (toy_sign 35 toy_digest) {[ "type" := "platinum" ]}
     = Err (UnsupportedPaddingScheme "platinum").
Proof.
  split; [| split].
  - apply (rsa_padding_dispatch toyPrimitives toy_rnd toy_rsa_key
             (rsa_Public toy_rsa_key) 5 toy_digest (toy_sign 35 toy_digest) ∅).
    left. apply lookup_empty.
  - apply (rsa_padding_dispatch toyPrimitives toy_rnd toy_rsa_key
             (rsa_Public toy_rsa_key) 5 toy_digest (toy_sign 35 toy_digest)
             {[ "type" := "pss" ]}).
    apply lookup_singleton_eq.
  - apply (rsa_padding_dispatch toyPrimitives toy_rnd toy_rsa_key
             (rsa_Public toy_rsa_key) 5 toy_digest (toy_sign 35 toy_digest)
             {[ "type" := "platinum" ]}).
    + apply lookup_singleton_eq.
    + discriminate.
    + discriminate.
Defined.

(** C2, the claim as first stated fails: with [options.type] set to
    "pkcs1v15" neither [signRSA] nor [verifyRSA] performs PKCS#1 v1.5;
    both return the unsupported-type error, on an input for which the
    PKCS#1 v1.5 functions themselves succeed. *)
Lemma rsa_padding_pkcs1v15_rejected :
  signRSA toyPrimitives toy_rnd toy_rsa_key 5 toy_digest
    {[ "type" := "pkcs1v15" ]}
  = Err (errors_New "unsupported type: pkcs1v15")
  /\ signPKCS toyPrimitives toy_rnd toy_rsa_key 5 toy_digest
     = Ok (toy_sign 35 toy_digest)
  /\ verifyRSA toyPrimitives (rsa_Public toy_rsa_key) 5 toy_digest
       (toy_sign 35 toy_digest) {[ "type" := "pkcs1v15" ]}
     = Err (errors_New "unsupported type: pkcs1v15")
  /\ verifyPKCS toyPrimitives (rsa_Public toy_rsa_key) 5 toy_digest
       (toy_sign 35 toy_digest) = true.
Proof. vm_compute. repeat split; reflexivity. Qed.

(** ** Verification: results and errors *)

Lemma validatePublicKey_valid (signer : x509_PublicKey) :
  validatePublicKey signer = None ->
  (pub_Algorithm signer = "DSA" /\ exists k, pub_Key signer = KeyDSAPublic k)
  \/ (pub_Algorithm signer = "ECDSA"
      /\ exists k, pub_Key signer = KeyECDSAPublic k)
  \/ (pub_Algorithm signer = "RSA"
      /\ exists k, pub_Key signer = KeyRSAPublic k).
Proof.
  unfold validatePublicKey.
  destruct (String.eqb_spec (pub_Algorithm signer) "DSA") as [-> | _].
  { destruct (pub_Key signer); try discriminate. eauto. }
  destruct (String.eqb_spec (pub_Algorithm signer) "ECDSA") as [-> | _].
  { destruct (pub_Key signer); try discriminate. eauto 6. }
  destruct (String.eqb_spec (pub_Algorithm signer) "RSA") as [-> | _].
  { destruct (pub_Key signer); try discriminate. eauto 6. }
  discriminate.
Qed.

Lemma validatePrivateKey_valid (signer : x509_PrivateKey) :
  validatePrivateKey signer = None ->
  (priv_Algorithm signer = "DSA"
   /\ exists k, priv_Key signer = KeyDSAPrivate k)
  \/ (priv_Algorithm signer = "ECDSA"
      /\ exists k, priv_Key signer = KeyECDSAPrivate k)
  \/ (priv_Algorithm signer = "RSA"
      /\ exists k, priv_Key signer = KeyRSAPrivate k).
Proof.
  unfold validatePrivateKey.
  destruct (String.eqb_spec (priv_Algorithm signer) "DSA") as [-> | _].
  { destruct (priv_Key signer); try discriminate. eauto. }
  destruct (String.eqb_spec (priv_Algorithm signer) "ECDSA") as [-> | _].
  { destruct (priv_Key signer); try discriminate. eauto 6. }
  destruct (String.eqb_spec (priv_Algorithm signer) "RSA") as [-> | _].
  { destruct (priv_Key signer); try discriminate. eauto 6. }
  discriminate.
Qed.

Section Execute.

Context (lib : Primitives).

Lemma executeVerify_DSA signer k function digest signature options :
  pub_Algorithm signer = "DSA" -> pub_Key signer = KeyDSAPublic k ->
  executeVerify lib signer function digest signature options
  = Done (verifyDSA lib k digest signature).
Proof.
  intros Ha Hk. unfold executeVerify. rewrite Ha, Hk. cbn.
  destruct (verifyDSA lib k digest signature); reflexivity.
Qed.

Lemma executeVerify_ECDSA signer k function digest signature options :
  pub_Algorithm signer = "ECDSA" -> pub_Key signer = KeyECDSAPublic k ->
  executeVerify lib signer function digest signature options
  = Done (verifyECDSA lib k digest signature).
Proof.
  intros Ha Hk. unfold executeVerify. rewrite Ha, Hk. cbn.
  destruct (verifyECDSA lib k digest signature); reflexivity.
Qed.

Lemma executeVerify_RSA signer k function digest signature options :
  pub_Algorithm signer = "RSA" -> pub_Key signer = KeyRSAPublic k ->
  executeVerify lib signer function digest signature options
  = Done (verifyRSA lib k function digest signature options).
Proof.
  intros Ha Hk. unfold executeVerify. rewrite Ha, Hk. cbn.
  destruct (verifyRSA lib k function digest signature options); reflexivity.
Qed.

Lemma executeVerify_unknown signer function digest signature options :
  pub_Algorithm signer <> "DSA" -> pub_Algorithm signer <> "ECDSA" ->
  pub_Algorithm signer <> "RSA" ->
  executeVerify lib signer function digest signature options
  = Done (Err (errors_New "invalid public key")).
Proof.
  intros H1 H2 H3. unfold executeVerify.
  destruct (String.eqb_spec (pub_Algorithm signer) "DSA"); [contradiction |].
  destruct (String.eqb_spec (pub_Algorithm signer) "ECDSA"); [contradiction |].
  destruct (String.eqb_spec (pub_Algorithm signer) "RSA"); [contradiction |].
  reflexivity.
Qed.

Lemma executeSign_DSA rnd signer k function digest format options :
  priv_Algorithm signer = "DSA" -> priv_Key signer = KeyDSAPrivate k ->
  executeSign lib rnd signer function digest format options
  = Done (match signDSA lib rnd k digest with
          | Err err => Err err
          | Ok signature => encodeBinary signature format
          end).
Proof.
  intros Ha Hk. unfold executeSign. rewrite Ha, Hk. cbn.
  destruct (signDSA lib rnd k digest) as [sig |]; [| reflexivity].
  destruct (encodeBinary sig format); reflexivity.
Qed.

Lemma executeSign_ECDSA rnd signer k function digest format options :
  priv_Algorithm signer = "ECDSA" -> priv_Key signer = KeyECDSAPrivate k ->
  executeSign lib rnd signer function digest format options
  = Done (match signECDSA lib rnd k digest with
          | Err err => Err err
          | Ok signature => encodeBinary signature format
          end).
Proof.
  intros Ha Hk. unfold executeSign. rewrite Ha, Hk. cbn.
  destruct (signECDSA lib rnd k digest) as [sig |]; [| reflexivity].
  destruct (encodeBinary sig format); reflexivity.
Qed.

Lemma executeSign_RSA rnd signer k function digest format options :
  priv_Algorithm signer = "RSA" -> priv_Key signer = KeyRSAPrivate k ->
  executeSign lib rnd signer function digest format options
  = Done (match signRSA lib rnd k function digest options with
          | Err err => Err err
          | Ok signature => encodeBinary signature format
          end).
Proof.
  intros Ha Hk. unfold executeSign. rewrite Ha, Hk. cbn.
  destruct (signRSA lib rnd k function digest options) as [sig |];
    [| reflexivity].
  destruct (encodeBinary sig format); reflexivity.
Qed.

End Execute.

(** C3. Verification never errors on a mismatched but well-formed
    signature.  A key tag outside RSA, DSA and ECDSA is the error
    "invalid public key".  For a valid key [executeVerify] always
    returns; when the signature is well formed for the key's algorithm
    (the ASN.1 pair parses for DSA and ECDSA, the padding type is
    supported for RSA) the result is the boolean verdict of the
    primitive, so a signature that does not match the digest gives
    [false]; and an error comes back exactly when the ASN.1 encoding is
    corrupt (DSA, ECDSA) or the RSA padding type is unsupported. *)
Theorem verify_errors_only_on_malformed (lib : Primitives)
    (signer : x509_PublicKey) (function : Hash)
    (digest signature : list byte) (options : SigningOptions) :
  (pub_Algorithm signer <> "DSA" -> pub_Algorithm signer <> "ECDSA" ->
   pub_Algorithm signer <> "RSA" ->
   executeVerify lib signer function digest signature options
   = Done (Err (errors_New "invalid public key")))
  /\ (validatePublicKey signer = None ->
      (exists r,
          executeVerify lib signer function digest signature options = Done r)
      /\ (forall k r s rest,
             pub_Key signer = KeyDSAPublic k ->
             asn1_Unmarshal lib signature = Ok ((r, s), rest) ->
             executeVerify lib signer function digest signature options
             = Done (Ok (dsa_Verify lib k digest r s)))
      /\ (forall k r s rest,
             pub_Key signer = KeyECDSAPublic k ->
             asn1_Unmarshal lib signature = Ok ((r, s), rest) ->
             executeVerify lib signer function digest signature options
             = Done (Ok (ecdsa_Verify lib k digest r s)))
      /\ (forall k,
             pub_Key signer = KeyRSAPublic k ->
             option_get options "type" = "" ->
             executeVerify lib signer function digest signature options
             = Done (Ok (match rsa_VerifyPKCS1v15 lib k function digest
                                 signature with
                         | None => true
                         | Some _ => false
                         end)))
      /\ (forall k,
             pub_Key signer = KeyRSAPublic k ->
             option_get options "type" = "pss" ->
             executeVerify lib signer function digest signature options
             = Done (Ok (match rsa_VerifyPSS lib k function digest signature
                                 (decodePssOptions options) with
                         | None => true
                         | Some _ => false
                         end)))
      /\ (forall e,
             executeVerify lib signer function digest signature options
             = Done (Err e)
             <-> ((pub_Algorithm signer = "DSA"
                   \/ pub_Algorithm signer = "ECDSA")
                  /\ asn1_Unmarshal lib signature = Err e)
                 \/ (pub_Algorithm signer = "RSA"
                     /\ option_get options "type" <> ""
                     /\ option_get options "type" <> "pss"
                     /\ e = UnsupportedPaddingScheme
                              (option_get options "type")))).
Proof.
  split; [apply executeVerify_unknown |].
  intros Hvalid.
  destruct (validatePublicKey_valid signer Hvalid)
    as [(Ha & k & Hk) | [(Ha & k & Hk) | (Ha & k & Hk)]].
  - (* DSA *)
    rewrite (executeVerify_DSA lib signer k) by assumption.
    rewrite Ha, Hk. unfold verifyDSA.
    repeat split; try discriminate; try (intros; discriminate).
    + eauto.
    + intros k' r s rest [= <-] ->. reflexivity.
    + destruct (asn1_Unmarshal lib signature) as [[rs rest] | e'].
      * discriminate.
      * intros [= ->]. left. split; [left |]; reflexivity.
    + intros [([_ | Hx] & Hu) | (Hx & _)]; try discriminate.
      rewrite Hu. reflexivity.
  - (* ECDSA *)
    rewrite (executeVerify_ECDSA lib signer k) by assumption.
    rewrite Ha, Hk. unfold verifyECDSA.
    repeat split; try discriminate; try (intros; discriminate).
    + eauto.
    + intros k' r s rest [= <-] ->. reflexivity.
    + destruct (asn1_Unmarshal lib signature) as [[rs rest] | e'].
      * discriminate.
      * intros [= ->]. left. split; [right |]; reflexivity.
    + intros [([Hx | _] & Hu) | (Hx & _)]; try discriminate.
      rewrite Hu. reflexivity.
  - (* RSA *)
    rewrite (executeVerify_RSA lib signer k) by assumption.
    rewrite Ha, Hk.
    repeat split; try discriminate; try (intros; discriminate).
    + eauto.
    + intros k' [= <-] Ht. rewrite verifyRSA_pkcs by exact Ht. reflexivity.
    + intros k' [= <-] Ht. rewrite verifyRSA_pss by exact Ht. reflexivity.
    + unfold verifyRSA.
      destruct (String.eqb_spec (option_get options "type") "");
        [discriminate |].
      destruct (String.eqb_spec (option_get options "type") "pss");
        [discriminate |].
      intros [= <-]. right. auto.
    + intros [([Hx | Hx] & _) | (_ & H1 & H2 & ->)]; try discriminate.
      rewrite verifyRSA_other by assumption. reflexivity.
Qed.

Lemma verify_errors_only_on_malformed_witness :
  executeVerify toyPrimitives
    {| pub_Algorithm := "DSA"; pub_Key := KeyDSAPublic (dsa_Public toy_dsa_key) |}
    5 toy_digest (bytes_of_Zs [1; 2]) ∅
  = Done (Ok false)
  /\ executeVerify toyPrimitives
       {| pub_Algorithm := "RSA";
          pub_Key := KeyRSAPublic (rsa_Public toy_rsa_key) |}
       5 toy_digest (bytes_of_Zs [1; 2]) ∅
     = Done (Ok false)
  /\ executeVerify toyPrimitives
       {| pub_Algorithm := "Ed25519"; pub_Key := KeyOther |}
       5 toy_digest (bytes_of_Zs [1; 2]) ∅
     = Done (Err (errors_New "invalid public key")).
Proof.
  split; [| split].
  - destruct (verify_errors_only_on_malformed toyPrimitives
                {| pub_Algorithm := "DSA";
                   pub_Key := KeyDSAPublic (dsa_Public toy_dsa_key) |}
                5 toy_digest (bytes_of_Zs [1; 2]) ∅) as (_ & Hvalid).
    destruct (Hvalid eq_refl) as (_ & Hdsa & _).
    apply (Hdsa (dsa_Public toy_dsa_key) 1 2 []); reflexivity.
  - destruct (verify_errors_only_on_malformed toyPrimitives
                {| pub_Algorithm := "RSA";
                   pub_Key := KeyRSAPublic (rsa_Public toy_rsa_key) |}
                5 toy_digest (bytes_of_Zs [1; 2]) ∅) as (_ & Hvalid).
    destruct (Hvalid eq_refl) as (_ & _ & _ & Hrsa & _).
    apply (Hrsa (rsa_Public toy_rsa_key)); reflexivity.
  - apply (proj1 (verify_errors_only_on_malformed toyPrimitives
                    {| pub_Algorithm := "Ed25519"; pub_Key := KeyOther |}
                    5 toy_digest (bytes_of_Zs [1; 2]) ∅)); cbn; discriminate.
Defined.

(** ** Signing then verifying *)

Lemma decodeSignature_base64 (sig : list byte) :
  is_ok (hex_DecodeString (base64_EncodeToString sig)) = false ->
  decodeSignature (VString (base64_EncodeToString sig)) = Ok sig.
Proof.
  intros Hhex. unfold decodeSignature, decodeBinaryDetect. cbn.
  destruct (hex_DecodeString (base64_EncodeToString sig)); [discriminate |].
  rewrite base64_round_trip. reflexivity.
Qed.


Lemma decodeSignature_encodeBinary (sig : list byte) (format : string)
    (enc : value) :
  encodeBinary sig format = Ok enc -> readsBack format enc ->
  decodeSignature enc = Ok sig.
Proof.
  unfold encodeBinary. intros Henc Hback.
  destruct (String.eqb_spec format "").
  { injection Henc as <-. reflexivity. }
  destruct (String.eqb_spec format "binary").
  { injection Henc as <-. reflexivity. }
  destruct (String.eqb_spec format "hex").
  { injection Henc as <-. unfold decodeSignature, decodeBinaryDetect. cbn.
    rewrite hex_round_trip. reflexivity. }
  destruct (String.eqb_spec format "base64") as [Hf |]; [| discriminate].
  injection Henc as <-. apply decodeSignature_base64.
  apply (Hback Hf). reflexivity.
Qed.

(** The completeness half of the sign-then-verify property, given the
    contracts of the primitives and a consistent key: what
    [executeSign] returns, [executeVerify] accepts for the same digest
    and options with the public half of the key, provided
    auto-detection reads the encoded signature back; and for any other
    digest it answers with a boolean. *)
Lemma sign_then_verify (lib : Primitives) (consistent : key -> Prop)
    (Hlib : PrimitivesSpec lib consistent)
    (rnd : entropy) (priv : x509_PrivateKey) (function : Hash)
    (digest : list byte) (format : string) (options : SigningOptions)
    (enc : value) :
  consistent (priv_Key priv) ->
  executeSign lib rnd priv function digest format options = Done (Ok enc) ->
  readsBack format enc ->
  exists sig,
    decodeSignature enc = Ok sig
    /\ executeVerify lib (publicOf priv) function digest sig options
       = Done (Ok true)
    /\ forall digest',
         exists b,
           executeVerify lib (publicOf priv) function digest' sig options
           = Done (Ok b).
Proof.
  intros Hcons Hsign Hback.
  destruct (String.eqb_spec (priv_Algorithm priv) "DSA") as [Ha | Hn1].
  { destruct (priv_Key priv) as [| | | k | | |] eqn:Hk;
      try (unfold executeSign in Hsign; rewrite Ha, Hk in Hsign;
           discriminate).
    rewrite (executeSign_DSA lib rnd priv k) in Hsign by assumption.
    unfold signDSA in Hsign.
    destruct (dsa_Sign lib rnd k digest) as [[r s] |] eqn:Hs;
      [| discriminate].
    destruct (asn1_Marshal lib (r, s)) as [der |] eqn:Hm; [| discriminate].
    injection Hsign as Henc.
    exists der. split; [eapply decodeSignature_encodeBinary; eassumption |].
    assert (Hv : forall d,
               executeVerify lib (publicOf priv) function d der options
               = Done (Ok (dsa_Verify lib (dsa_Public k) d r s))).
    { intros d. rewrite (executeVerify_DSA lib _ (dsa_Public k))
        by (unfold publicOf; cbn; rewrite ?Hk; auto).
      unfold verifyDSA. rewrite (asn1_roundtrip lib _ Hlib _ _ Hm).
      reflexivity. }
    split; [| intros d; rewrite Hv; eauto].
    rewrite Hv, (dsa_complete lib _ Hlib _ _ _ _ _ Hcons Hs). reflexivity. }
  destruct (String.eqb_spec (priv_Algorithm priv) "ECDSA") as [Ha | Hn2].
  { destruct (priv_Key priv) as [| | | | | k |] eqn:Hk;
      try (unfold executeSign in Hsign; rewrite Ha, Hk in Hsign;
           discriminate).
    rewrite (executeSign_ECDSA lib rnd priv k) in Hsign by assumption.
    unfold signECDSA in Hsign.
    destruct (ecdsa_Sign lib rnd k digest) as [[r s] |] eqn:Hs;
      [| discriminate].
    destruct (asn1_Marshal lib (r, s)) as [der |] eqn:Hm; [| discriminate].
    injection Hsign as Henc.
    exists der. split; [eapply decodeSignature_encodeBinary; eassumption |].
    assert (Hv : forall d,
               executeVerify lib (publicOf priv) function d der options
               = Done (Ok (ecdsa_Verify lib (ecdsa_Public k) d r s))).
    { intros d. rewrite (executeVerify_ECDSA lib _ (ecdsa_Public k))
        by (unfold publicOf; cbn; rewrite ?Hk; auto).
      unfold verifyECDSA. rewrite (asn1_roundtrip lib _ Hlib _ _ Hm).
      reflexivity. }
    split; [| intros d; rewrite Hv; eauto].
    rewrite Hv, (ecdsa_complete lib _ Hlib _ _ _ _ _ Hcons Hs). reflexivity. }
  destruct (String.eqb_spec (priv_Algorithm priv) "RSA") as [Ha | Hn3].
  { destruct (priv_Key priv) as [| k | | | | |] eqn:Hk;
      try (unfold executeSign in Hsign; rewrite Ha, Hk in Hsign;
           discriminate).
    rewrite (executeSign_RSA lib rnd priv k) in Hsign by assumption.
    destruct (signRSA lib rnd k function digest options) as [sig |] eqn:Hs;
      [| discriminate].
    injection Hsign as Henc.
    exists sig. split; [eapply decodeSignature_encodeBinary; eassumption |].
    assert (Hv : forall d,
               executeVerify lib (publicOf priv) function d sig options
               = Done (verifyRSA lib (rsa_Public k) function d sig options)).
    { intros d. apply executeVerify_RSA; unfold publicOf; cbn;
        rewrite ?Hk; auto. }
    unfold signRSA in Hs.
    destruct (String.eqb_spec (option_get options "type") "") as [Ht |].
    - split.
      + rewrite Hv, verifyRSA_pkcs by exact Ht.
        unfold signPKCS in Hs. unfold verifyPKCS.
        destruct (rsa_SignPKCS1v15 lib rnd k function digest)
          as [sig' |] eqn:Hp; [| discriminate].
        injection Hs as ->.
        rewrite (pkcs_complete lib _ Hlib _ _ _ _ _ Hcons Hp). reflexivity.
      + intros d. rewrite Hv, verifyRSA_pkcs by exact Ht. eauto.
    - destruct (String.eqb_spec (option_get options "type") "pss") as [Ht |];
        [| discriminate].
      split.
      + rewrite Hv, verifyRSA_pss by exact Ht.
        unfold signPSS in Hs. unfold verifyPSS.
        destruct (rsa_SignPSS lib rnd k function digest
                    (decodePssOptions options)) as [sig' |] eqn:Hp;
          [| discriminate].
        injection Hs as ->.
        rewrite (pss_complete lib _ Hlib _ _ _ _ _ _ Hcons Hp). reflexivity.
      + intros d. rewrite Hv, verifyRSA_pss by exact Ht. eauto. }
  unfold executeSign in Hsign.
  destruct (String.eqb_spec (priv_Algorithm priv) "DSA"); [contradiction |].
  destruct (String.eqb_spec (priv_Algorithm priv) "ECDSA"); [contradiction |].
  destruct (String.eqb_spec (priv_Algorithm priv) "RSA"); [contradiction |].
  discriminate.
Qed.

(** ** The chunked signer and verifier *)

Section Chunked.

Context (lib : Primitives).

Lemma Signer_Update_decoded signer v format addition :
  decodeBinary v format = Ok addition ->
  Signer_Update signer v format = (Done tt, Signer_append signer addition).
Proof. unfold Signer_Update. intros ->. reflexivity. Qed.

Lemma Verifier_Update_decoded verifier v format addition :
  decodeBinary v format = Ok addition ->
  Verifier_Update verifier v format
  = (Done tt, Verifier_append verifier addition).
Proof. unfold Verifier_Update. intros ->. reflexivity. Qed.

Lemma Signer_append_nil signer : Signer_append signer [] = signer.
Proof.
  destruct signer. unfold Signer_append. cbn. rewrite app_nil_r. reflexivity.
Qed.

Lemma Signer_append_app signer a b :
  Signer_append (Signer_append signer a) b = Signer_append signer (a ++ b).
Proof. unfold Signer_append. cbn. rewrite app_assoc. reflexivity. Qed.

Lemma Verifier_append_nil verifier : Verifier_append verifier [] = verifier.
Proof.
  destruct verifier. unfold Verifier_append. cbn.
  rewrite app_nil_r. reflexivity.
Qed.

Lemma Verifier_append_app verifier a b :
  Verifier_append (Verifier_append verifier a) b
  = Verifier_append verifier (a ++ b).
Proof. unfold Verifier_append. cbn. rewrite app_assoc. reflexivity. Qed.

Lemma Signer_Updates_decoded chunks parts :
  decodeTo chunks parts ->
  forall signer,
    Signer_Updates signer chunks
    = (Done tt, Signer_append signer (concat parts)).
Proof.
  induction 1 as [| [v f] b chunks parts Hb _ IH]; intros signer.
  - cbn. rewrite Signer_append_nil. reflexivity.
  - cbn [Signer_Updates concat]. cbn in Hb.
    rewrite (Signer_Update_decoded _ _ _ _ Hb), IH, Signer_append_app.
    reflexivity.
Qed.

Lemma Verifier_Updates_decoded chunks parts :
  decodeTo chunks parts ->
  forall verifier,
    Verifier_Updates verifier chunks
    = (Done tt, Verifier_append verifier (concat parts)).
Proof.
  induction 1 as [| [v f] b chunks parts Hb _ IH]; intros verifier.
  - cbn. rewrite Verifier_append_nil. reflexivity.
  - cbn [Verifier_Updates concat]. cbn in Hb.
    rewrite (Verifier_Update_decoded _ _ _ _ Hb), IH, Verifier_append_app.
    reflexivity.
Qed.

(** Raw chunks decode to themselves. *)
Lemma decodeTo_raw (parts : list (list byte)) (f : string) :
  f = "" \/ f = "binary" ->
  decodeTo (map (fun c => (VBytes c, f)) parts) parts.
Proof.
  intros Hf. induction parts as [| c parts IH]; constructor; [| exact IH].
  cbn. apply decodeBinary_bytes. exact Hf.
Qed.


End Chunked.




(** C7. Finalize preserves the accumulator: a terminal [Sign] or
    [Verify] leaves the context as it found it, plaintext, digest name
    and options alike; an [Update] after it extends the same plaintext,
    and a second finalize hashes, then signs or verifies, the longer
    plaintext under the same digest name and options. *)
Theorem finalize_preserves_accumulator (lib : Primitives) :
  (forall rnd signer k format,
      snd (Signer_Sign lib rnd signer k format) = signer)
  /\ (forall verifier k sig,
         snd (Verifier_Verify lib verifier k sig) = verifier)
  /\ (forall rnd1 rnd2 signer k format1 format2 v f addition,
         decodeBinary v f = Ok addition ->
         let signer1 := snd (Signer_Sign lib rnd1 signer k format1) in
         let signer2 := snd (Signer_Update signer1 v f) in
         signer_plaintext signer2 = (signer_plaintext signer ++ addition)%list
         /\ signer_functionEncoded signer2 = signer_functionEncoded signer
         /\ signer_function signer2 = signer_function signer
         /\ signer_options signer2 = signer_options signer
         /\ fst (Signer_Sign lib rnd2 signer2 k format2)
            = (hashed ← hashPlaintext lib (signer_functionEncoded signer)
                           (signer_plaintext signer ++ addition);
               digest ← orThrow hashed;
               r ← executeSign lib rnd2 k (signer_function signer) digest
                     format2 (signer_options signer);
               orThrow r))
  /\ (forall verifier k sig1 sig2 v f addition,
         decodeBinary v f = Ok addition ->
         let verifier1 := snd (Verifier_Verify lib verifier k sig1) in
         let verifier2 := snd (Verifier_Update verifier1 v f) in
         verifier_plaintext verifier2
         = (verifier_plaintext verifier ++ addition)%list
         /\ verifier_functionEncoded verifier2
            = verifier_functionEncoded verifier
         /\ verifier_function verifier2 = verifier_function verifier
         /\ verifier_options verifier2 = verifier_options verifier
         /\ fst (Verifier_Verify lib verifier2 k sig2)
            = (signature ← orThrow (decodeSignature sig2);
               hashed ← hashPlaintext lib (verifier_functionEncoded verifier)
                           (verifier_plaintext verifier ++ addition);
               digest ← orThrow hashed;
               r ← executeVerify lib k (verifier_function verifier) digest
                     signature (verifier_options verifier);
               orThrow r)).
Proof.
  split; [reflexivity |]. split; [reflexivity |]. split.
  - intros rnd1 rnd2 signer k format1 format2 v f addition Hdec.
    cbn [Signer_Sign snd].
    rewrite (Signer_Update_decoded _ _ _ _ Hdec). cbn [snd].
    repeat split.
  - intros verifier k sig1 sig2 v f addition Hdec.
    cbn [Verifier_Verify snd].
    rewrite (Verifier_Update_decoded _ _ _ _ Hdec). cbn [snd].
    repeat split.
Qed.

Lemma finalize_preserves_accumulator_witness :
  let signer := Signer_append toy_signer (list_byte_of_string "he") in
  let verifier := Verifier_append toy_verifier (list_byte_of_string "he") in
  let k := {| priv_Algorithm := "RSA"; priv_Key := KeyRSAPrivate toy_rsa_key |} in
  let signer1 := snd (Signer_Sign toyPrimitives toy_rnd signer k "") in
  let signer2 := snd (Signer_Update signer1 (VString "6c6c6f") "hex") in
  let verifier1 :=
    snd (Verifier_Verify toyPrimitives verifier (publicOf k) (VString "00")) in
  let verifier2 := snd (Verifier_Update verifier1 (VString "bGxv") "base64") in
  signer1 = signer
  /\ signer_plaintext signer2 = list_byte_of_string "hello"
  /\ verifier1 = verifier
  /\ verifier_plaintext verifier2 = list_byte_of_string "hello".
Proof.
  intros signer verifier k signer1 signer2 verifier1 verifier2.
  split; [| split; [| split]].
  - apply (proj1 (finalize_preserves_accumulator toyPrimitives)).
  - apply (proj1 (proj2 (proj2 (finalize_preserves_accumulator toyPrimitives)))
             toy_rnd toy_rnd signer k "" "" (VString "6c6c6f") "hex"
             (list_byte_of_string "llo")).
    reflexivity.
  - apply (proj1 (proj2 (finalize_preserves_accumulator toyPrimitives))).
  - apply (proj2 (proj2 (proj2 (finalize_preserves_accumulator toyPrimitives)))
             verifier (publicOf k) (VString "00") (VString "00")
             (VString "bGxv") "base64" (list_byte_of_string "llo")).
    reflexivity.
Defined.

(** ** Key validation *)

Section Validation.

Context (lib : Primitives).

Lemma Crypto_Sign_invalid rnd k e functionEncoded plaintextEncoded format
    options :
  validatePrivateKey k = Some e ->
  Crypto_Sign lib rnd k functionEncoded plaintextEncoded format options
  = throw e.
Proof.
  intros Hk. unfold Crypto_Sign, prepareSign. rewrite Hk. reflexivity.
Qed.

Lemma Crypto_Verify_invalid k e functionEncoded plaintextEncoded
    signatureEncoded options :
  validatePublicKey k = Some e ->
  Crypto_Verify lib k functionEncoded plaintextEncoded signatureEncoded options
  = throw e.
Proof.
  intros Hk. unfold Crypto_Verify, prepareVerify. rewrite Hk. reflexivity.
Qed.

Lemma executeSign_mismatch rnd k e function digest format options :
  validatePrivateKey k = Some e ->
  priv_Algorithm k = "RSA" \/ priv_Algorithm k = "DSA"
  \/ priv_Algorithm k = "ECDSA" ->
  executeSign lib rnd k function digest format options
  = Panicked TypeAssertionPanic.
Proof.
  unfold validatePrivateKey, executeSign.
  intros Hk [Ha | [Ha | Ha]]; rewrite Ha in *; cbn in *;
    destruct (priv_Key k); try discriminate; reflexivity.
Qed.

Lemma executeVerify_mismatch k e function digest signature options :
  validatePublicKey k = Some e ->
  pub_Algorithm k = "RSA" \/ pub_Algorithm k = "DSA"
  \/ pub_Algorithm k = "ECDSA" ->
  executeVerify lib k function digest signature options
  = Panicked TypeAssertionPanic.
Proof.
  unfold validatePublicKey, executeVerify.
  intros Hk [Ha | [Ha | Ha]]; rewrite Ha in *; cbn in *;
    destruct (pub_Key k); try discriminate; reflexivity.
Qed.

End Validation.

(** C10. The incremental finalize path skips key validation.  For a key
    whose tag is "RSA", "DSA" or "ECDSA" and whose value has another
    type (so that validation reports an error [e]), the one-shot [Sign]
    and [Verify] throw [e] before anything else, while [Signer.Sign]
    and [Verifier.Verify], once the plaintext is hashed (and the
    signature decoded), reach the unchecked type assertion and panic. *)
Theorem incremental_skips_key_validation (lib : Primitives) :
  (forall rnd signer k e format digest,
      validatePrivateKey k = Some e ->
      priv_Algorithm k = "RSA" \/ priv_Algorithm k = "DSA"
      \/ priv_Algorithm k = "ECDSA" ->
      hashPlaintext lib (signer_functionEncoded signer)
        (signer_plaintext signer) = Done (Ok digest) ->
      fst (Signer_Sign lib rnd signer k format) = Panicked TypeAssertionPanic
      /\ forall functionEncoded plaintextEncoded options,
           Crypto_Sign lib rnd k functionEncoded plaintextEncoded format
             options = throw e)
  /\ (forall verifier k e signatureEncoded signature digest,
         validatePublicKey k = Some e ->
         pub_Algorithm k = "RSA" \/ pub_Algorithm k = "DSA"
         \/ pub_Algorithm k = "ECDSA" ->
         decodeSignature signatureEncoded = Ok signature ->
         hashPlaintext lib (verifier_functionEncoded verifier)
           (verifier_plaintext verifier) = Done (Ok digest) ->
         fst (Verifier_Verify lib verifier k signatureEncoded)
         = Panicked TypeAssertionPanic
         /\ forall functionEncoded plaintextEncoded options,
              Crypto_Verify lib k functionEncoded plaintextEncoded
                signatureEncoded options = throw e).
Proof.
  split.
  - intros rnd signer k e format digest Hk Ha Hhash. split.
    + unfold Signer_Sign. cbn [fst]. rewrite Hhash.
      cbn [orThrow mbind go_bind].
      rewrite (executeSign_mismatch lib _ _ _ _ _ _ _ Hk Ha). reflexivity.
    + intros. apply Crypto_Sign_invalid. exact Hk.
  - intros verifier k e signatureEncoded signature digest Hk Ha Hsig Hhash.
    split.
    + unfold Verifier_Verify. cbn [fst]. rewrite Hsig, Hhash.
      cbn [orThrow mbind go_bind].
      rewrite (executeVerify_mismatch lib _ _ _ _ _ _ Hk Ha). reflexivity.
    + intros. apply Crypto_Verify_invalid. exact Hk.
Qed.

Lemma incremental_skips_key_validation_witness :
  let k := {| priv_Algorithm := "RSA"; priv_Key := KeyDSAPrivate toy_dsa_key |} in
  fst (Signer_Sign toyPrimitives toy_rnd toy_signer k "")
  = Panicked TypeAssertionPanic
  /\ Crypto_Sign toyPrimitives toy_rnd k "sha256" (VString "6869") "" ∅
     = throw (errors_New "invalid RSA private key").
Proof.
  intros k.
  destruct (proj1 (incremental_skips_key_validation toyPrimitives)
              toy_rnd toy_signer k (errors_New "invalid RSA private key")
              "" []) as (Hinc & Hone).
  - reflexivity.
  - left. reflexivity.
  - reflexivity.
  - split; [exact Hinc | apply Hone].
Defined.

(** ** Decimal parsing and the PSS salt length *)

Lemma digit_byte (d : Z) :
  isDigit d -> byte_to_Z (byte_of_Z (48 + d)) = 48 + d.
Proof. unfold isDigit. intros Hd. apply byte_to_of_Z. lia. Qed.

Lemma digit_not_sign (d : Z) (c : byte) :
  isDigit d -> byte_to_Z c < 48 -> byte_eqb (byte_of_Z (48 + d)) c = false.
Proof.
  intros Hd Hc. destruct (byte_eqb (byte_of_Z (48 + d)) c) eqn:E; [| reflexivity].
  apply byte_eqb_eq in E. rewrite <- E, digit_byte in Hc by exact Hd.
  unfold isDigit in Hd. lia.
Qed.

Lemma fold_digits_ge (ds : list Z) :
  Forall isDigit ds ->
  forall n, 0 <= n -> n <= fold_left (fun n d => n * 10 + d) ds n.
Proof.
  induction 1 as [| d ds Hd _ IH]; intros n Hn; [cbn; lia |].
  cbn [fold_left]. unfold isDigit in Hd.
  specialize (IH (n * 10 + d)). lia.
Qed.

Lemma maxUint64_value : maxUint64 = 18446744073709551615.
Proof. reflexivity. Qed.

Lemma parseUint_digits_value (ds : list Z) :
  Forall isDigit ds ->
  forall n, 0 <= n ->
    fold_left (fun n d => n * 10 + d) ds n <= maxUint64 ->
    parseUint_digits n (decimalDigits ds)
    = Ok (fold_left (fun n d => n * 10 + d) ds n).
Proof.
  induction 1 as [| d ds Hd Hds IH]; intros n Hn Hmax; [reflexivity |].
  cbn [decimalDigits map parseUint_digits fold_left] in *.
  fold (decimalDigits ds).
  pose proof (fold_digits_ge ds Hds (n * 10 + d)) as Hge.
  rewrite maxUint64_value in *.
  rewrite digit_byte by exact Hd. unfold isDigit in Hd.
  cbv zeta.
  replace (48 + d - 48) with d by lia.
  destruct (Z.leb_spec 48 (48 + d)); [| lia].
  destruct (Z.leb_spec (48 + d) 57); [| lia].
  cbn [andb].
  change (18446744073709551615 / 10 + 1) with 1844674407370955162.
  rewrite Z.geb_leb.
  destruct (Z.leb_spec 1844674407370955162 n); [lia |].
  change (2 ^ 64) with 18446744073709551616.
  rewrite Z.mod_small by lia.
  rewrite Z.gtb_ltb.
  destruct (Z.ltb_spec (n * 10 + d) (n * 10)); [lia |].
  destruct (Z.ltb_spec 18446744073709551615 (n * 10 + d)); [lia |].
  cbn [orb]. apply IH; lia.
Qed.

Lemma ParseUint_decimal (ds : list Z) :
  ds <> [] -> Forall isDigit ds -> decimalValue ds <= maxUint64 ->
  strconv_ParseUint (decimalDigits ds) = Ok (decimalValue ds).
Proof.
  intros Hne Hds Hv. destruct ds as [| d ds]; [contradiction |].
  change (strconv_ParseUint (decimalDigits (d :: ds)))
    with (parseUint_digits 0 (decimalDigits (d :: ds))).
  apply parseUint_digits_value; [exact Hds | lia | exact Hv].
Qed.

Lemma ParseInt_decimal (ds : list Z) :
  ds <> [] -> Forall isDigit ds -> decimalValue ds < 2 ^ 63 ->
  strconv_ParseInt (string_of_list_byte (decimalDigits ds))
  = Ok (decimalValue ds).
Proof.
  intros Hne Hds Hv. unfold strconv_ParseInt.
  rewrite list_byte_of_string_of_list_byte.
  change (2 ^ 63) with 9223372036854775808 in *.
  assert (Hu : strconv_ParseUint (decimalDigits ds) = Ok (decimalValue ds)).
  { apply ParseUint_decimal; try assumption. rewrite maxUint64_value. lia. }
  destruct ds as [| d ds]; [contradiction |].
  pose proof (Forall_inv Hds) as Hd.
  cbn [decimalDigits map]. fold (decimalDigits ds).
  rewrite !digit_not_sign by (exact Hd || (vm_compute; reflexivity)).
  cbv zeta.
  change (byte_of_Z (48 + d) :: decimalDigits ds)
    with (decimalDigits (d :: ds)).
  rewrite Hu, Z.geb_leb.
  destruct (Z.leb_spec 9223372036854775808 (decimalValue (d :: ds))); [lia |].
  reflexivity.
Qed.

Lemma ParseInt_negative (ds : list Z) :
  ds <> [] -> Forall isDigit ds -> decimalValue ds <= 2 ^ 63 ->
  strconv_ParseInt (string_of_list_byte ("-"%byte :: decimalDigits ds))
  = Ok (- decimalValue ds).
Proof.
  intros Hne Hds Hv. unfold strconv_ParseInt.
  rewrite list_byte_of_string_of_list_byte.
  change (byte_eqb "-" "-") with true. change (byte_eqb "-" "+") with false.
  cbv zeta. cbn [negb andb].
  change (2 ^ 63) with 9223372036854775808 in *.
  rewrite ParseUint_decimal
    by (try assumption; rewrite maxUint64_value; lia).
  rewrite Z.gtb_ltb.
  destruct (Z.ltb_spec 9223372036854775808 (decimalValue ds)); [lia |].
  reflexivity.
Qed.

Example decodeInt_examples :
  decodeInt "32" = 32 /\ decodeInt "" = 0 /\ decodeInt "+7" = 7
  /\ decodeInt "-1" = -1 /\ decodeInt "0x20" = 0 /\ decodeInt "12 " = 0
  /\ decodeInt "9223372036854775807" = 9223372036854775807
  /\ decodeInt "9223372036854775808" = 0
  /\ decodeInt "-9223372036854775808" = -9223372036854775808.
Proof. vm_compute. repeat split; reflexivity. Qed.

(** C8, as amended.  PSS salt length: [signPSS] and [verifyPSS] hand
    the RSA primitive the salt length [decodeInt (options["saltLength"])]:
    the option read as a decimal integer (the number its digits write,
    an optional minus sign in front), and 0 when the option is absent.
    For [crypto/rsa] 0 is [PSSSaltLengthAuto] (the longest salt that
    fits when signing, auto-detection when verifying), not the digest
    length; the digest length is what "-1", [PSSSaltLengthEqualsHash],
    selects. *)
Theorem pss_salt_length (lib : Primitives) (rnd : entropy)
    (priv : rsa_PrivateKey) (pub : rsa_PublicKey) (function : Hash)
    (digest signature : list byte) (options : SigningOptions) :
  signPSS lib rnd priv function digest options
  = match rsa_SignPSS lib rnd priv function digest
            {| SaltLength := decodeInt (option_get options "saltLength") |}
    with
    | Err err => Err (errors_Wrap err "failed to sign message")
    | Ok sig => Ok sig
    end
  /\ verifyPSS lib pub function digest signature options
     = match rsa_VerifyPSS lib pub function digest signature
               {| SaltLength := decodeInt (option_get options "saltLength") |}
       with
       | Some _ => false
       | None => true
       end
  /\ (options !! "saltLength" = None ->
      decodePssOptions options = {| SaltLength := 0 |})
  /\ (forall ds : list Z,
         ds <> [] -> Forall isDigit ds -> decimalValue ds < 2 ^ 63 ->
         options !! "saltLength"
         = Some (string_of_list_byte (decimalDigits ds)) ->
         decodePssOptions options = {| SaltLength := decimalValue ds |})
  /\ (forall ds : list Z,
         ds <> [] -> Forall isDigit ds -> decimalValue ds <= 2 ^ 63 ->
         options !! "saltLength"
         = Some (string_of_list_byte ("-"%byte :: decimalDigits ds)) ->
         decodePssOptions options = {| SaltLength := - decimalValue ds |})
  /\ (options !! "saltLength" = None ->
      SaltLength (decodePssOptions options) = rsa_PSSSaltLengthAuto
      /\ SaltLength (decodePssOptions options) <> rsa_PSSSaltLengthEqualsHash)
  /\ (options !! "saltLength" = Some "-1" ->
      SaltLength (decodePssOptions options) = rsa_PSSSaltLengthEqualsHash).
Proof.
  split; [reflexivity |]. split; [reflexivity |].
  unfold decodePssOptions, decodeInt. split; [| split; [| split; [| split]]].
  - intros Hopt. rewrite (option_get_unset _ _ Hopt). reflexivity.
  - intros ds Hne Hds Hv Hopt. rewrite (option_get_set _ _ _ Hopt).
    rewrite ParseInt_decimal by assumption. reflexivity.
  - intros ds Hne Hds Hv Hopt. rewrite (option_get_set _ _ _ Hopt).
    rewrite ParseInt_negative by assumption. reflexivity.
  - intros Hopt. rewrite (option_get_unset _ _ Hopt). cbn.
    split; [reflexivity | discriminate].
  - intros Hopt. rewrite (option_get_set _ _ _ Hopt). reflexivity.
Qed.

Lemma pss_salt_length_witness :
  decodePssOptions ∅ = {| SaltLength := 0 |}
  /\ decodePssOptions {[ "saltLength" := "32" ]} = {| SaltLength := 32 |}
  /\ decodePssOptions {[ "saltLength" := "-1" ]} = {| SaltLength := -1 |}
  /\ SaltLength (decodePssOptions ∅) = rsa_PSSSaltLengthAuto
  /\ SaltLength (decodePssOptions {[ "saltLength" := "-1" ]})
     = rsa_PSSSaltLengthEqualsHash.
Proof.
  pose proof (pss_salt_length toyPrimitives toy_rnd toy_rsa_key
                (rsa_Public toy_rsa_key) 5 toy_digest toy_digest ∅)
    as (_ & _ & Habsent & _ & _ & Hauto & _).
  pose proof (pss_salt_length toyPrimitives toy_rnd toy_rsa_key
                (rsa_Public toy_rsa_key) 5 toy_digest toy_digest
                {[ "saltLength" := "32" ]})
    as (_ & _ & _ & Hdec & _).
  pose proof (pss_salt_length toyPrimitives toy_rnd toy_rsa_key
                (rsa_Public toy_rsa_key) 5 toy_digest toy_digest
                {[ "saltLength" := "-1" ]})
    as (_ & _ & _ & _ & Hneg & _ & Hhash).
  split; [| split; [| split; [| split]]].
  - apply Habsent. apply lookup_empty.
  - apply (Hdec [3; 2]).
    + discriminate.
    + repeat constructor; unfold isDigit; lia.
    + vm_compute. reflexivity.
    + apply lookup_singleton_eq.
  - apply (Hneg [1]).
    + discriminate.
    + repeat constructor; unfold isDigit; lia.
    + vm_compute. discriminate.
    + apply lookup_singleton_eq.
  - apply Hauto. apply lookup_empty.
  - apply Hhash. apply lookup_singleton_eq.
Defined.

(** C8, the claim as first stated fails: the salt length used when the
    option is absent, 0, is not the setting of [crypto/rsa] that means
    "as long as the digest"; that setting is -1, which the code passes
    on only when the option says "-1". *)
Lemma pss_default_salt_is_not_digest_length :
  SaltLength (decodePssOptions ∅) = 0
  /\ SaltLength (decodePssOptions ∅) = rsa_PSSSaltLengthAuto
  /\ SaltLength (decodePssOptions ∅) <> rsa_PSSSaltLengthEqualsHash
  /\ SaltLength (decodePssOptions {[ "saltLength" := "-1" ]})
     = rsa_PSSSaltLengthEqualsHash.
Proof. vm_compute. repeat split; (reflexivity || discriminate). Qed.

(** * Further properties of the engine and the codec *)

(** ** One-shot signing and verification *)

Lemma validate_publicOf (k : x509_PrivateKey) :
  validatePrivateKey k = None -> validatePublicKey (publicOf k) = None.
Proof.
  intros Hk.
  destruct (validatePrivateKey_valid k Hk)
    as [(Ha & p & Hp) | [(Ha & p & Hp) | (Ha & p & Hp)]];
    unfold validatePublicKey, publicOf; cbn; rewrite Ha, Hp; reflexivity.
Qed.

Section OneShot.

Context (lib : Primitives).

Lemma Crypto_Sign_done rnd k functionEncoded plaintextEncoded format options
    enc :
  Crypto_Sign lib rnd k functionEncoded plaintextEncoded format options
  = Done enc ->
  validatePrivateKey k = None
  /\ exists function plaintext digest,
      decodeFunction lib functionEncoded = Ok function
      /\ decodePlaintext plaintextEncoded = Ok plaintext
      /\ hashPlaintext lib functionEncoded plaintext = Done (Ok digest)
      /\ executeSign lib rnd k function digest format options
         = Done (Ok enc).
Proof.
  unfold Crypto_Sign, prepareSign.
  destruct (validatePrivateKey k) as [e |] eqn:Hk; [discriminate |].
  cbn [checkKey mbind go_bind].
  destruct (decodeFunction lib functionEncoded) as [function | e] eqn:Hf;
    [| discriminate].
  cbn [orThrow mbind go_bind].
  destruct (decodePlaintext plaintextEncoded) as [plaintext | e] eqn:Hp;
    [| discriminate].
  cbn [orThrow mbind go_bind].
  destruct (hashPlaintext lib functionEncoded plaintext)
    as [[digest | e] | p] eqn:Hh; try discriminate.
  cbn [orThrow mbind go_bind].
  destruct (executeSign lib rnd k function digest format options)
    as [[v | e] | p] eqn:Hx; try discriminate.
  cbn [orThrow]. intros [= ->]. split; [reflexivity |].
  exists function, plaintext, digest. auto.
Qed.

Lemma Crypto_Verify_steps k functionEncoded plaintextEncoded signatureEncoded
    options function plaintext digest signature :
  validatePublicKey k = None ->
  decodeFunction lib functionEncoded = Ok function ->
  decodePlaintext plaintextEncoded = Ok plaintext ->
  hashPlaintext lib functionEncoded plaintext = Done (Ok digest) ->
  decodeSignature signatureEncoded = Ok signature ->
  Crypto_Verify lib k functionEncoded plaintextEncoded signatureEncoded options
  = (r ← executeVerify lib k function digest signature options; orThrow r).
Proof.
  intros Hk Hf Hp Hh Hs. unfold Crypto_Verify, prepareVerify.
  rewrite Hk, Hf, Hp. cbn [checkKey orThrow mbind go_bind].
  rewrite Hh. cbn [orThrow mbind go_bind]. rewrite Hs. reflexivity.
Qed.

End OneShot.




(** X2. The string entry points sign and verify the bytes of the text:
    [SignString] and [VerifyString] on a string do what [Sign] and
    [Verify] do on the byte array holding its bytes. *)
Theorem string_entry_points_use_raw_bytes (lib : Primitives) :
  (forall rnd k functionEncoded (text : string) format options,
      Crypto_SignString lib rnd k functionEncoded text format options
      = Crypto_Sign lib rnd k functionEncoded
          (VBytes (list_byte_of_string text)) format options)
  /\ (forall k functionEncoded (text : string) signatureEncoded options,
         Crypto_VerifyString lib k functionEncoded text signatureEncoded
           options
         = Crypto_Verify lib k functionEncoded
             (VBytes (list_byte_of_string text)) signatureEncoded options).
Proof.
  split.
  - intros. unfold Crypto_SignString, Crypto_Sign, prepareSignString,
      prepareSign.
    destruct (validatePrivateKey k); [reflexivity |].
    cbn [checkKey mbind go_bind].
    destruct (decodeFunction lib functionEncoded); reflexivity.
  - intros. unfold Crypto_VerifyString, Crypto_Verify, prepareVerifyString,
      prepareVerify.
    destruct (validatePublicKey k); [reflexivity |].
    cbn [checkKey mbind go_bind].
    destruct (decodeFunction lib functionEncoded); reflexivity.
Qed.

Section Plaintext.

Context (lib : Primitives).

Lemma Crypto_Sign_plaintext rnd k functionEncoded v plaintext format options :
  decodePlaintext v = Ok plaintext ->
  Crypto_Sign lib rnd k functionEncoded v format options
  = Crypto_Sign lib rnd k functionEncoded (VBytes plaintext) format options.
Proof.
  intros Hp. unfold Crypto_Sign, prepareSign. rewrite Hp. reflexivity.
Qed.

Lemma Crypto_Verify_plaintext k functionEncoded v plaintext signatureEncoded
    options :
  decodePlaintext v = Ok plaintext ->
  Crypto_Verify lib k functionEncoded v signatureEncoded options
  = Crypto_Verify lib k functionEncoded (VBytes plaintext) signatureEncoded
      options.
Proof.
  intros Hp. unfold Crypto_Verify, prepareVerify. rewrite Hp. reflexivity.
Qed.

End Plaintext.

(** X3. A textual plaintext given to [Sign] or [Verify] is never signed
    as it stands: text that is valid hexadecimal is signed as the bytes
    it writes, other text that is valid base64 as the bytes that
    writes, and, for a valid key and a known digest name, text that is
    neither throws the wrapped error "could not decode data". *)
Theorem textual_plaintext_is_decoded (lib : Primitives) (rnd : entropy)
    (k : x509_PrivateKey) (pub : x509_PublicKey) (functionEncoded : string)
    (text : string) (signatureEncoded : value) (format : string)
    (options : SigningOptions) :
  (forall b, hex_DecodeString text = Ok b ->
     Crypto_Sign lib rnd k functionEncoded (VString text) format options
     = Crypto_Sign lib rnd k functionEncoded (VBytes b) format options
     /\ Crypto_Verify lib pub functionEncoded (VString text) signatureEncoded
          options
        = Crypto_Verify lib pub functionEncoded (VBytes b) signatureEncoded
            options)
  /\ (forall b, is_ok (hex_DecodeString text) = false ->
        base64_DecodeString text = Ok b ->
        Crypto_Sign lib rnd k functionEncoded (VString text) format options
        = Crypto_Sign lib rnd k functionEncoded (VBytes b) format options
        /\ Crypto_Verify lib pub functionEncoded (VString text)
             signatureEncoded options
           = Crypto_Verify lib pub functionEncoded (VBytes b) signatureEncoded
               options)
  /\ (forall function,
        is_ok (hex_DecodeString text) = false ->
        is_ok (base64_DecodeString text) = false ->
        decodeFunction lib functionEncoded = Ok function ->
        (validatePrivateKey k = None ->
         Crypto_Sign lib rnd k functionEncoded (VString text) format options
         = throw (errors_Wrap UnrecognizedEncoding "could not decode data"))
        /\ (validatePublicKey pub = None ->
            Crypto_Verify lib pub functionEncoded (VString text)
              signatureEncoded options
            = throw (errors_Wrap UnrecognizedEncoding
                       "could not decode data"))).
Proof.
  split; [| split].
  - intros b Hb.
    assert (Hp : decodePlaintext (VString text) = Ok b).
    { unfold decodePlaintext, decodeBinaryDetect. cbn. rewrite Hb.
      reflexivity. }
    split; [apply Crypto_Sign_plaintext | apply Crypto_Verify_plaintext];
      exact Hp.
  - intros b Hh Hb.
    assert (Hp : decodePlaintext (VString text) = Ok b).
    { unfold decodePlaintext, decodeBinaryDetect. cbn.
      destruct (hex_DecodeString text); [discriminate |].
      rewrite Hb. reflexivity. }
    split; [apply Crypto_Sign_plaintext | apply Crypto_Verify_plaintext];
      exact Hp.
  - intros function Hh Hb Hf.
    assert (Hp : decodePlaintext (VString text)
                 = Err (errors_Wrap UnrecognizedEncoding
                          "could not decode data")).
    { unfold decodePlaintext, decodeBinaryDetect. cbn.
      destruct (hex_DecodeString text); [discriminate |].
      destruct (base64_DecodeString text); [discriminate |]. reflexivity. }
    split; intros Hk.
    + unfold Crypto_Sign, prepareSign. rewrite Hk, Hf, Hp. reflexivity.
    + unfold Crypto_Verify, prepareVerify. rewrite Hk, Hf, Hp. reflexivity.
Qed.

Lemma textual_plaintext_is_decoded_witness :
  let k := {| priv_Algorithm := "RSA"; priv_Key := KeyRSAPrivate toy_rsa_key |} in
  Crypto_Sign toyPrimitives toy_rnd k "sha256" (VString "6869") "" ∅
  = Crypto_Sign toyPrimitives toy_rnd k "sha256"
      (VBytes (list_byte_of_string "hi")) "" ∅
  /\ Crypto_Sign toyPrimitives toy_rnd k "sha256" (VString "aGk=") "" ∅
     = Crypto_Sign toyPrimitives toy_rnd k "sha256"
         (VBytes (list_byte_of_string "hi")) "" ∅
  /\ Crypto_Sign toyPrimitives toy_rnd k "sha256" (VString "hi!") "" ∅
     = throw (errors_Wrap UnrecognizedEncoding "could not decode data").
Proof.
  intros k. split; [| split].
  - apply (proj1 (textual_plaintext_is_decoded toyPrimitives toy_rnd k
                    (publicOf k) "sha256" "6869" (VString "00") "" ∅)).
    reflexivity.
  - apply (proj1 (proj2 (textual_plaintext_is_decoded toyPrimitives toy_rnd k
                           (publicOf k) "sha256" "aGk=" (VString "00") "" ∅)));
      reflexivity.
  - apply (proj2 (proj2 (textual_plaintext_is_decoded toyPrimitives toy_rnd k
                           (publicOf k) "sha256" "hi!" (VString "00") "" ∅))
             5); reflexivity.
Defined.

(** ** Chunked against one-shot *)

(** X4. Chunked signing is one-shot signing: for a valid key, creating a
    signer, feeding it chunks (in any encodings that decode) and
    finalizing gives, outcome for outcome, what [Sign] gives on the
    concatenation of the decoded chunks with the same digest name,
    options, format and randomness. *)
Theorem chunked_sign_is_oneshot (lib : Primitives) (rnd : entropy)
    (functionEncoded : string) (options : SigningOptions)
    (chunks : list (value * string)) (parts : list (list byte))
    (k : x509_PrivateKey) (format : string) :
  decodeTo chunks parts -> validatePrivateKey k = None ->
  signChunked lib rnd functionEncoded options chunks k format
  = Crypto_Sign lib rnd k functionEncoded (VBytes (concat parts)) format
      options.
Proof.
  intros Hdec Hk.
  unfold signChunked, CreateSign, Crypto_Sign, prepareSign.
  rewrite Hk. cbn [checkKey mbind go_bind].
  destruct (decodeFunction lib functionEncoded) as [function | e];
    [| reflexivity].
  cbn [orThrow mbind go_bind].
  rewrite (Signer_Updates_decoded _ _ Hdec).
  unfold Signer_Sign, Signer_append, decodePlaintext. cbn.
  destruct (hashPlaintext lib functionEncoded (concat parts))
    as [[digest | e] | p]; reflexivity.
Qed.

Lemma chunked_sign_is_oneshot_witness :
  let k := {| priv_Algorithm := "DSA"; priv_Key := KeyDSAPrivate toy_dsa_key |} in
  signChunked toyPrimitives toy_rnd "sha256" ∅
    [(VString "6865", "hex"); (VString "bGxv", "")] k "base64"
  = Crypto_Sign toyPrimitives toy_rnd k "sha256"
      (VBytes (list_byte_of_string "hello")) "base64" ∅.
Proof.
  intros k.
  apply (chunked_sign_is_oneshot toyPrimitives toy_rnd "sha256" ∅
           [(VString "6865", "hex"); (VString "bGxv", "")]
           [list_byte_of_string "he"; list_byte_of_string "llo"] k "base64").
  - repeat constructor.
  - reflexivity.
Defined.

(** X5. Chunked verification is one-shot verification: for a valid key
    and a signature that decodes, creating a verifier, feeding it chunks
    and finalizing gives what [Verify] gives on the concatenation of the
    decoded chunks. *)
Theorem chunked_verify_is_oneshot (lib : Primitives)
    (functionEncoded : string) (options : SigningOptions)
    (chunks : list (value * string)) (parts : list (list byte))
    (k : x509_PublicKey) (signatureEncoded : value) (signature : list byte) :
  decodeTo chunks parts -> validatePublicKey k = None ->
  decodeSignature signatureEncoded = Ok signature ->
  verifyChunked lib functionEncoded options chunks k signatureEncoded
  = Crypto_Verify lib k functionEncoded (VBytes (concat parts))
      signatureEncoded options.
Proof.
  intros Hdec Hk Hsig.
  unfold verifyChunked, CreateVerify, Crypto_Verify, prepareVerify.
  rewrite Hk. cbn [checkKey mbind go_bind].
  destruct (decodeFunction lib functionEncoded) as [function | e];
    [| reflexivity].
  cbn [orThrow mbind go_bind].
  rewrite (Verifier_Updates_decoded _ _ Hdec).
  unfold Verifier_Verify, Verifier_append, decodePlaintext. cbn.
  rewrite Hsig. cbn.
  destruct (hashPlaintext lib functionEncoded (concat parts))
    as [[digest | e] | p]; reflexivity.
Qed.

Lemma chunked_verify_is_oneshot_witness :
  let k := {| pub_Algorithm := "DSA";
              pub_Key := KeyDSAPublic (dsa_Public toy_dsa_key) |} in
  verifyChunked toyPrimitives "sha256" ∅
    [(VString "6865", "hex"); (VString "bGxv", "")] k (VString "0805")
  = Crypto_Verify toyPrimitives k "sha256"
      (VBytes (list_byte_of_string "hello")) (VString "0805") ∅.
Proof.
  intros k.
  apply (chunked_verify_is_oneshot toyPrimitives "sha256" ∅
           [(VString "6865", "hex"); (VString "bGxv", "")]
           [list_byte_of_string "he"; list_byte_of_string "llo"] k
           (VString "0805") (bytes_of_Zs [8; 5])).
  - repeat constructor.
  - reflexivity.
  - reflexivity.
Defined.

(** ** What the one-shot paths never do *)

Section NoAssertion.

Context (lib : Primitives).

Lemma executeSign_valid rnd k function digest format options :
  validatePrivateKey k = None ->
  exists r, executeSign lib rnd k function digest format options = Done r.
Proof.
  intros Hk.
  destruct (validatePrivateKey_valid k Hk)
    as [(Ha & p & Hp) | [(Ha & p & Hp) | (Ha & p & Hp)]].
  - rewrite (executeSign_DSA lib rnd k p) by assumption. eauto.
  - rewrite (executeSign_ECDSA lib rnd k p) by assumption. eauto.
  - rewrite (executeSign_RSA lib rnd k p) by assumption. eauto.
Qed.

Lemma executeVerify_valid k function digest signature options :
  validatePublicKey k = None ->
  exists r, executeVerify lib k function digest signature options = Done r.
Proof.
  intros Hk.
  destruct (validatePublicKey_valid k Hk)
    as [(Ha & p & Hp) | [(Ha & p & Hp) | (Ha & p & Hp)]].
  - rewrite (executeVerify_DSA lib k p) by assumption. eauto.
  - rewrite (executeVerify_ECDSA lib k p) by assumption. eauto.
  - rewrite (executeVerify_RSA lib k p) by assumption. eauto.
Qed.

Lemma hashPlaintext_no_assertion function plaintext :
  hasherNoAssertionPanic lib ->
  hashPlaintext lib function plaintext <> Panicked TypeAssertionPanic.
Proof.
  intros Hh. unfold hashPlaintext.
  specialize (Hh function plaintext).
  destruct (hasher_Digest lib function plaintext) as [v | p]; cbn.
  - destruct v; discriminate.
  - congruence.
Qed.

End NoAssertion.

(** X6. The one-shot paths never fail a type assertion: whatever the
    key, tag and value, [Sign] and [Verify] return or throw an error;
    they do not reach the panic of an unchecked assertion (the hasher
    being free of such panics itself). *)
Theorem oneshot_never_fails_assertion (lib : Primitives) :
  hasherNoAssertionPanic lib ->
  (forall rnd k functionEncoded plaintextEncoded format options,
      Crypto_Sign lib rnd k functionEncoded plaintextEncoded format options
      <> Panicked TypeAssertionPanic)
  /\ (forall k functionEncoded plaintextEncoded signatureEncoded options,
         Crypto_Verify lib k functionEncoded plaintextEncoded signatureEncoded
           options
         <> Panicked TypeAssertionPanic).
Proof.
  intros Hh. split.
  - intros rnd k functionEncoded plaintextEncoded format options.
    unfold Crypto_Sign, prepareSign.
    destruct (validatePrivateKey k) as [e |] eqn:Hk; [discriminate |].
    cbn [checkKey mbind go_bind].
    destruct (decodeFunction lib functionEncoded) as [function | e];
      [| discriminate].
    cbn [orThrow mbind go_bind].
    destruct (decodePlaintext plaintextEncoded) as [plaintext | e];
      [| discriminate].
    cbn [orThrow mbind go_bind].
    pose proof (hashPlaintext_no_assertion lib functionEncoded plaintext Hh)
      as Hhash.
    destruct (hashPlaintext lib functionEncoded plaintext)
      as [[digest | e] | p];
      [| discriminate
       | cbn [mbind go_bind]; intros [= ->]; apply Hhash; reflexivity].
    cbn [orThrow mbind go_bind].
    destruct (executeSign_valid lib rnd k function digest format options Hk)
      as (r & ->).
    destruct r; discriminate.
  - intros k functionEncoded plaintextEncoded signatureEncoded options.
    unfold Crypto_Verify, prepareVerify.
    destruct (validatePublicKey k) as [e |] eqn:Hk; [discriminate |].
    cbn [checkKey mbind go_bind].
    destruct (decodeFunction lib functionEncoded) as [function | e];
      [| discriminate].
    cbn [orThrow mbind go_bind].
    destruct (decodePlaintext plaintextEncoded) as [plaintext | e];
      [| discriminate].
    cbn [orThrow mbind go_bind].
    pose proof (hashPlaintext_no_assertion lib functionEncoded plaintext Hh)
      as Hhash.
    destruct (hashPlaintext lib functionEncoded plaintext)
      as [[digest | e] | p];
      [| discriminate
       | cbn [mbind go_bind]; intros [= ->]; apply Hhash; reflexivity].
    cbn [orThrow mbind go_bind].
    destruct (decodeSignature signatureEncoded) as [signature | e];
      [| discriminate].
    cbn [orThrow mbind go_bind].
    destruct (executeVerify_valid lib k function digest signature options Hk)
      as (r & ->).
    destruct r; discriminate.
Qed.

Lemma toy_hasher_no_assertion : hasherNoAssertionPanic toyPrimitives.
Proof.
  intros name plaintext. cbn.
  destruct (String.eqb name "sha256"); discriminate.
Qed.

Lemma oneshot_never_fails_assertion_witness :
  Crypto_Sign toyPrimitives toy_rnd
    {| priv_Algorithm := "RSA"; priv_Key := KeyDSAPrivate toy_dsa_key |}
    "sha256" (VString "6869") "" ∅
  <> Panicked TypeAssertionPanic.
Proof.
  apply (oneshot_never_fails_assertion toyPrimitives toy_hasher_no_assertion).
Defined.

(** ** Dispatch details *)

(** X7. DSA and ECDSA ignore the options and the hash identifier: for a
    key tagged "DSA" or "ECDSA", [executeSign] and [executeVerify] give
    the same outcome whatever the options and the hash function passed,
    and so do [Sign] and [Verify] whatever the options; in particular
    an unknown padding type or a malformed salt length is not
    reported. *)
Theorem dsa_ecdsa_ignore_options (lib : Primitives) (rnd : entropy)
    (priv : x509_PrivateKey) (pub : x509_PublicKey)
    (function function' : Hash) (digest signature : list byte)
    (format : string) (options options' : SigningOptions) :
  (priv_Algorithm priv = "DSA" \/ priv_Algorithm priv = "ECDSA" ->
   executeSign lib rnd priv function digest format options
   = executeSign lib rnd priv function' digest format options'
   /\ forall functionEncoded plaintextEncoded,
        Crypto_Sign lib rnd priv functionEncoded plaintextEncoded format
          options
        = Crypto_Sign lib rnd priv functionEncoded plaintextEncoded format
            options')
  /\ (pub_Algorithm pub = "DSA" \/ pub_Algorithm pub = "ECDSA" ->
      executeVerify lib pub function digest signature options
      = executeVerify lib pub function' digest signature options'
      /\ forall functionEncoded plaintextEncoded signatureEncoded,
           Crypto_Verify lib pub functionEncoded plaintextEncoded
             signatureEncoded options
           = Crypto_Verify lib pub functionEncoded plaintextEncoded
               signatureEncoded options').
Proof.
  split.
  - intros Ha.
    assert (Hx : forall f f' d,
               executeSign lib rnd priv f d format options
               = executeSign lib rnd priv f' d format options').
    { intros f f' d. unfold executeSign.
      destruct Ha as [Ha | Ha]; rewrite Ha; reflexivity. }
    split; [apply Hx |].
    intros functionEncoded plaintextEncoded. unfold Crypto_Sign.
    destruct (prepareSign lib priv functionEncoded plaintextEncoded)
      as [[f d] | p]; [| reflexivity].
    cbn [mbind go_bind]. rewrite (Hx f f d). reflexivity.
  - intros Ha.
    assert (Hx : forall f f' d sig,
               executeVerify lib pub f d sig options
               = executeVerify lib pub f' d sig options').
    { intros f f' d sig. unfold executeVerify.
      destruct Ha as [Ha | Ha]; rewrite Ha; reflexivity. }
    split; [apply Hx |].
    intros functionEncoded plaintextEncoded signatureEncoded.
    unfold Crypto_Verify.
    destruct (prepareVerify lib pub functionEncoded plaintextEncoded
                signatureEncoded) as [[[f d] sig] | p]; [| reflexivity].
    cbn [mbind go_bind]. rewrite (Hx f f d sig). reflexivity.
Qed.

Lemma dsa_ecdsa_ignore_options_witness :
  let k := {| priv_Algorithm := "DSA"; priv_Key := KeyDSAPrivate toy_dsa_key |} in
  executeSign toyPrimitives toy_rnd k 5 toy_digest "hex"
    {[ "type" := "platinum" ]}
  = executeSign toyPrimitives toy_rnd k 3 toy_digest "hex" ∅.
Proof.
  intros k.
  apply (proj1 (dsa_ecdsa_ignore_options toyPrimitives toy_rnd k (publicOf k)
                  5 3 toy_digest toy_digest "hex" {[ "type" := "platinum" ]}
                  ∅)).
  left. reflexivity.
Defined.

(** X8. The output format only re-encodes the raw signature: if
    [executeSign] with the empty format returns the bytes [sig], then
    with any format it returns [encodeBinary sig format], so an
    unsupported format is reported only after signing has succeeded; if
    it returns an error or panics with the empty format, it does the
    same with every format. *)
Theorem format_only_reencodes (lib : Primitives) (rnd : entropy)
    (k : x509_PrivateKey) (function : Hash) (digest : list byte)
    (format : string) (options : SigningOptions) :
  (forall v,
      executeSign lib rnd k function digest "" options = Done (Ok v) ->
      exists sig,
        v = VBytes sig
        /\ executeSign lib rnd k function digest format options
           = Done (encodeBinary sig format))
  /\ (forall e,
         executeSign lib rnd k function digest "" options = Done (Err e) ->
         executeSign lib rnd k function digest format options = Done (Err e))
  /\ (forall p,
         executeSign lib rnd k function digest "" options = Panicked p ->
         executeSign lib rnd k function digest format options = Panicked p).
Proof.
  unfold executeSign.
  match goal with
  | |- context [@mbind go _ _ _ _ ?m] => destruct m as [[sig | e] | p]
  end; cbn [mbind go_bind].
  - repeat split; try discriminate.
    intros v. cbn. intros [= <-]. exists sig. split; [reflexivity |].
    destruct (encodeBinary sig format); reflexivity.
  - repeat split; try discriminate. intros e' [= <-]. reflexivity.
  - repeat split; try discriminate. intros p' [= <-]. reflexivity.
Qed.

Lemma format_only_reencodes_witness :
  let k := {| priv_Algorithm := "RSA"; priv_Key := KeyRSAPrivate toy_rsa_key |} in
  executeSign toyPrimitives toy_rnd k 5 toy_digest "utf8" ∅
  = Done (Err (UnsupportedEncoding "utf8"))
  /\ executeSign toyPrimitives toy_rnd k 5 toy_digest "utf8"
       {[ "type" := "pkcs1v15" ]}
     = Done (Err (UnsupportedPaddingScheme "pkcs1v15")).
Proof.
  intros k. split.
  - assert (Hraw : executeSign toyPrimitives toy_rnd k 5 toy_digest "" ∅
                   = Done (Ok (VBytes (toy_sign 35 toy_digest))))
      by (vm_compute; reflexivity).
    destruct (proj1 (format_only_reencodes toyPrimitives toy_rnd k 5
                       toy_digest "utf8" ∅)
                (VBytes (toy_sign 35 toy_digest)) Hraw)
      as (sig & Hsig & Hx).
    injection Hsig as <-. exact Hx.
  - apply (proj1 (proj2 (format_only_reencodes toyPrimitives toy_rnd k 5
                           toy_digest "utf8" {[ "type" := "pkcs1v15" ]}))).
    vm_compute. reflexivity.
Defined.

(** ** Updates in sequence *)

(** X9. Successive updates only append, and stop at the first chunk that
    does not decode: after [Signer_Updates] the signer is the old one
    with the decoded chunks of some prefix of the list appended, in
    order; the outcome is success exactly when that prefix is the whole
    list, and otherwise the codec error of the first chunk after the
    prefix, thrown.  The same holds for the verifier. *)
Theorem updates_append_decoded_prefix :
  (forall (chunks : list (value * string)) (signer : Signer),
      exists parts,
        decodeTo (firstn (length parts) chunks) parts
        /\ snd (Signer_Updates signer chunks)
           = Signer_append signer (concat parts)
        /\ match skipn (length parts) chunks with
           | [] => fst (Signer_Updates signer chunks) = Done tt
           | (v, f) :: _ =>
               exists e, decodeBinary v f = Err e
                         /\ fst (Signer_Updates signer chunks) = throw e
           end)
  /\ (forall (chunks : list (value * string)) (verifier : Verifier),
         exists parts,
           decodeTo (firstn (length parts) chunks) parts
           /\ snd (Verifier_Updates verifier chunks)
              = Verifier_append verifier (concat parts)
           /\ match skipn (length parts) chunks with
              | [] => fst (Verifier_Updates verifier chunks) = Done tt
              | (v, f) :: _ =>
                  exists e, decodeBinary v f = Err e
                            /\ fst (Verifier_Updates verifier chunks) = throw e
              end).
Proof.
  split.
  - induction chunks as [| [v f] chunks IH]; intros signer.
    + exists []. cbn. rewrite Signer_append_nil.
      repeat split. constructor.
    + cbn [Signer_Updates]. unfold Signer_Update.
      destruct (decodeBinary v f) as [addition | e] eqn:Hd.
      * destruct (IH (Signer_append signer addition))
          as (parts & Hdec & Hstate & Hout).
        exists (addition :: parts). cbn [length firstn skipn concat].
        fold (Signer_append signer addition).
        rewrite Hstate, Signer_append_app.
        repeat split; [| exact Hout].
        constructor; [exact Hd | exact Hdec].
      * exists []. cbn. rewrite Signer_append_nil.
        repeat split; [constructor |]. exists e. auto.
  - induction chunks as [| [v f] chunks IH]; intros verifier.
    + exists []. cbn. rewrite Verifier_append_nil.
      repeat split. constructor.
    + cbn [Verifier_Updates]. unfold Verifier_Update.
      destruct (decodeBinary v f) as [addition | e] eqn:Hd.
      * destruct (IH (Verifier_append verifier addition))
          as (parts & Hdec & Hstate & Hout).
        exists (addition :: parts). cbn [length firstn skipn concat].
        fold (Verifier_append verifier addition).
        rewrite Hstate, Verifier_append_app.
        repeat split; [| exact Hout].
        constructor; [exact Hd | exact Hdec].
      * exists []. cbn. rewrite Verifier_append_nil.
        repeat split; [constructor |]. exists e. auto.
Qed.

(** ** More on hexadecimal text *)

Lemma list_ind2 {A} (P : list A -> Prop) :
  P [] -> (forall a, P [a]) -> (forall a b l, P l -> P (a :: b :: l)) ->
  forall l, P l.
Proof.
  intros H0 H1 H2.
  assert (Hall : forall l, P l /\ (forall a, P (a :: l))).
  { induction l as [| b l (IH0 & IH1)]; [auto |]. split; auto. }
  intros l. apply Hall.
Qed.

Lemma hex_Decode_cases (src : list byte) :
  (forall out, hex_Decode src = Ok out ->
     length src = (2 * length out)%nat /\ forallb isHexChar src = true)
  /\ (forallb isHexChar src = true -> Nat.even (length src) = true ->
      exists out, hex_Decode src = Ok out)
  /\ (forallb isHexChar src = true -> Nat.even (length src) = false ->
      hex_Decode src = Err hex_ErrLength)
  /\ (forallb isHexChar src = false ->
      exists c, In c src /\ isHexChar c = false
                /\ hex_Decode src = Err (hex_InvalidByteError c)).
Proof.
  induction src as [| a | a b l (I1 & I2 & I3 & I4)] using list_ind2.
  - cbn. split; [| split; [| split]].
    + intros out [= <-]. split; reflexivity.
    + intros _ _. eauto.
    + intros _ H. discriminate H.
    + intros H. discriminate H.
  - cbn. unfold isHexChar. destruct (fromHexChar a) eqn:Ea; cbn;
      (split; [| split; [| split]]); try (intros; discriminate).
    + intros _ _. reflexivity.
    + intros _. exists a. rewrite Ea. auto.
  - cbn [hex_Decode forallb length Nat.even].
    destruct (fromHexChar a) as [x |] eqn:Ea.
    2:{ assert (Ha : isHexChar a = false) by (unfold isHexChar; rewrite Ea; reflexivity).
        rewrite Ha. cbn [andb].
        (split; [| split; [| split]]); try (intros; discriminate).
        intros _. exists a. cbn. auto. }
    assert (Ha : isHexChar a = true) by (unfold isHexChar; rewrite Ea; reflexivity).
    rewrite Ha. cbn [andb].
    destruct (fromHexChar b) as [y |] eqn:Eb.
    2:{ assert (Hb : isHexChar b = false) by (unfold isHexChar; rewrite Eb; reflexivity).
        rewrite Hb. cbn [andb].
        (split; [| split; [| split]]); try (intros; discriminate).
        intros _. exists b. cbn. auto. }
    assert (Hb : isHexChar b = true) by (unfold isHexChar; rewrite Eb; reflexivity).
    rewrite Hb. cbn [andb].
    split; [| split; [| split]].
    + intros out H.
      destruct (hex_Decode l) as [out' |]; [| discriminate].
      injection H as <-. destruct (I1 out' eq_refl) as (Hlen & Hall).
      split; [cbn [length]; lia | exact Hall].
    + intros Hall Heven. destruct (I2 Hall Heven) as (out' & ->). eauto.
    + intros Hall Hodd. rewrite (I3 Hall Hodd). reflexivity.
    + intros Hbad. destruct (I4 Hbad) as (c & Hin & Hc & ->).
      exists c. cbn. auto.
Qed.

(** X10. When hexadecimal decoding succeeds and how it fails:
    [decodeBinary] with format "hex" succeeds on a string exactly when
    it has an even number of characters, all hexadecimal digits (either
    case), and then returns half as many bytes; on digits in odd number
    it fails with [ErrLength]; otherwise it fails with
    [InvalidByteError] on a character of the string that is not a
    digit. *)
Theorem hex_decoding_characterised (s : string) :
  let src := list_byte_of_string s in
  (forall out, decodeBinary (VString s) "hex" = Ok out ->
     length src = (2 * length out)%nat /\ forallb isHexChar src = true)
  /\ (forallb isHexChar src = true -> Nat.even (length src) = true ->
      exists out, decodeBinary (VString s) "hex" = Ok out)
  /\ (forallb isHexChar src = true -> Nat.even (length src) = false ->
      decodeBinary (VString s) "hex" = Err hex_ErrLength)
  /\ (forallb isHexChar src = false ->
      exists c, In c src /\ isHexChar c = false
                /\ decodeBinary (VString s) "hex"
                   = Err (hex_InvalidByteError c)).
Proof.
  intros src.
  change (decodeBinary (VString s) "hex") with (hex_Decode src).
  apply hex_Decode_cases.
Qed.

Lemma hex_decoding_characterised_witness :
  (exists out, decodeBinary (VString "C0ffEE") "hex" = Ok out)
  /\ decodeBinary (VString "c0f") "hex" = Err hex_ErrLength
  /\ exists c, isHexChar c = false
               /\ decodeBinary (VString "c0g") "hex"
                  = Err (hex_InvalidByteError c).
Proof.
  split; [| split].
  - apply (proj1 (proj2 (hex_decoding_characterised "C0ffEE"))); reflexivity.
  - apply (proj1 (proj2 (proj2 (hex_decoding_characterised "c0f"))));
      reflexivity.
  - destruct (proj2 (proj2 (proj2 (hex_decoding_characterised "c0g"))) eq_refl)
      as (c & _ & Hc & Hd).
    exists c. split; assumption.
Defined.

(** ** Encoded sizes *)

Lemma encoded_list_lengths (src : list byte) :
  length (hex_Encode src) = (2 * length src)%nat
  /\ length (base64_Encode src) = (4 * ((length src + 2) / 3))%nat.
Proof.
  split.
  - induction src as [| v src IH]; [reflexivity |].
    unfold hex_Encode in *. cbn [flat_map app length]. rewrite IH. lia.
  - induction src as [| a | a b | a b c rest IH] using list_ind3;
      try reflexivity.
    cbn [base64_Encode length]. rewrite IH.
    replace (S (S (S (length rest))) + 2)%nat
      with (length rest + 2 + 1 * 3)%nat by lia.
    rewrite Nat.div_add by lia. lia.
Qed.

Lemma length_string_of_list_byte (l : list byte) :
  String.length (string_of_list_byte l) = length l.
Proof.
  induction l as [| b l IH]; [reflexivity |].
  cbn. f_equal. exact IH.
Qed.

(** X11. Encoded sizes: the text [encodeBinary] returns has two
    characters per byte under "hex", and four characters per group of
    three bytes, the last group counted whole, under "base64". *)
Theorem encoded_text_lengths (b : list byte) :
  (exists t, encodeBinary b "hex" = Ok (VString t)
             /\ String.length t = (2 * length b)%nat)
  /\ (exists t, encodeBinary b "base64" = Ok (VString t)
                /\ String.length t = (4 * ((length b + 2) / 3))%nat).
Proof.
  destruct (encoded_list_lengths b) as (Hhex & H64).
  split; eexists; (split; [reflexivity |]).
  - unfold hex_EncodeToString. rewrite length_string_of_list_byte. exact Hhex.
  - unfold base64_EncodeToString. rewrite length_string_of_list_byte.
    exact H64.
Qed.

(** ** Base64 text and line breaks *)

Lemma isNewline_cases (c : byte) :
  isNewline c = true -> c = "010"%byte \/ c = "013"%byte.
Proof.
  unfold isNewline. intros H. apply Bool.orb_true_iff in H.
  destruct H as [H | H]; apply byte_eqb_eq in H; auto.
Qed.

Lemma decodeMap_newline (c : byte) : isNewline c = true -> decodeMap c = None.
Proof. intros H. destruct (isNewline_cases c H) as [-> | ->]; reflexivity. Qed.

Lemma notNewline_of (c : byte) (b : bool) :
  isNewline c = b -> notNewline c = negb b.
Proof. unfold notNewline. intros ->. reflexivity. Qed.

Lemma skipNewlines_filter (l : list byte) :
  List.filter notNewline (skipNewlines l) = List.filter notNewline l.
Proof.
  induction l as [| c l IH]; [reflexivity |].
  cbn [skipNewlines List.filter].
  destruct (isNewline c) eqn:Hc; rewrite ?(notNewline_of c _ Hc); cbn [negb].
  - exact IH.
  - cbn [List.filter]. rewrite (notNewline_of c _ Hc). reflexivity.
Qed.

Lemma skipNewlines_head (l : list byte) :
  match skipNewlines l with
  | [] => List.filter notNewline l = []
  | c :: l' =>
      isNewline c = false
      /\ List.filter notNewline l = c :: List.filter notNewline l'
  end.
Proof.
  induction l as [| c l IH]; [reflexivity |].
  cbn [skipNewlines List.filter].
  destruct (isNewline c) eqn:Hc; rewrite (notNewline_of c _ Hc); cbn [negb].
  - exact IH.
  - auto.
Qed.

Lemma skipNewlines_filtered (l : list byte) :
  skipNewlines (List.filter notNewline l) = List.filter notNewline l.
Proof.
  induction l as [| c l IH]; [reflexivity |].
  cbn [List.filter].
  destruct (isNewline c) eqn:Hc; rewrite (notNewline_of c _ Hc); cbn [negb].
  - exact IH.
  - cbn [skipNewlines]. rewrite Hc. reflexivity.
Qed.

Lemma base64_decode_filter (src : list byte) :
  forall dbuf,
    base64_decode dbuf (List.filter notNewline src) = base64_decode dbuf src.
Proof.
  induction src as [| c rest IH]; intros dbuf; [reflexivity |].
  cbn [List.filter].
  destruct (isNewline c) eqn:Hc; rewrite (notNewline_of c _ Hc); cbn [negb].
  - cbn [base64_decode]. rewrite (decodeMap_newline c Hc), Hc. apply IH.
  - cbn [base64_decode]. rewrite Hc.
    destruct (decodeMap c) as [out |].
    + rewrite !IH. reflexivity.
    + destruct (byte_eqb c padChar); [| reflexivity].
      rewrite skipNewlines_filtered.
      pose proof (skipNewlines_head rest) as Hrest.
      destruct (length dbuf) as [| [| [| n]]]; try reflexivity.
      * destruct (skipNewlines rest) as [| c2 rest2].
        { rewrite Hrest. reflexivity. }
        destruct Hrest as (_ & ->).
        destruct (byte_eqb c2 padChar); [| reflexivity].
        rewrite skipNewlines_filtered.
        pose proof (skipNewlines_head rest2) as Hrest2.
        destruct (skipNewlines rest2) as [| c3 rest3].
        { rewrite Hrest2. reflexivity. }
        destruct Hrest2 as (_ & ->). reflexivity.
      * destruct (skipNewlines rest) as [| c2 rest2].
        { rewrite Hrest. reflexivity. }
        destruct Hrest as (_ & ->). reflexivity.
Qed.

Lemma base64_Decode_filter (src : list byte) :
  base64_Decode (List.filter notNewline src) = base64_Decode src.
Proof. unfold base64_Decode. apply base64_decode_filter. Qed.

(** X12. Line breaks do not count in base64 text: carriage returns and
    line feeds anywhere in the string, inside a group or around the
    padding, do not change what [decodeBinary] with format "base64"
    decodes: it succeeds on the string exactly when it succeeds on the
    string without its line breaks, with the same bytes, and fails on
    one exactly when it fails on the other (nothing is said of the
    position the error reports). *)
Theorem base64_decoding_ignores_line_breaks (s : string) :
  let stripped :=
    VString (string_of_list_byte
               (List.filter notNewline (list_byte_of_string s))) in
  (forall out,
      decodeBinary stripped "base64" = Ok out
      <-> decodeBinary (VString s) "base64" = Ok out)
  /\ is_ok (decodeBinary stripped "base64")
     = is_ok (decodeBinary (VString s) "base64").
Proof.
  intros stripped.
  assert (Heq : decodeBinary stripped "base64"
                = decodeBinary (VString s) "base64").
  { change (decodeBinary (VString s) "base64")
      with (base64_Decode (list_byte_of_string s)).
    rewrite <- base64_Decode_filter.
    subst stripped. cbn. unfold base64_DecodeString.
    rewrite list_byte_of_string_of_list_byte. reflexivity. }
  rewrite Heq. split; [intros out; reflexivity | reflexivity].
Qed.

Example base64_line_breaks :
  base64_DecodeString
    (string_of_list_byte
       (list_byte_of_string "Zm9v" ++ ["010"%byte] ++ list_byte_of_string "Ym"
          ++ ["013"%byte; "010"%byte] ++ list_byte_of_string "E="
          ++ ["010"%byte]))
  = Ok (list_byte_of_string "fooba").
Proof. vm_compute. reflexivity. Qed.

(** ** Encoded signatures and auto-detection *)

Lemma hex_Decode_Ok_digits (src : list byte) :
  forall out, hex_Decode src = Ok out -> forallb isHexChar src = true.
Proof.
  induction src as [| a | a b l IH] using list_ind2; intros out.
  - reflexivity.
  - cbn. destruct (fromHexChar a); discriminate.
  - cbn [hex_Decode forallb]. unfold isHexChar at 1 2.
    destruct (fromHexChar a); [| discriminate].
    destruct (fromHexChar b); [| discriminate].
    destruct (hex_Decode l) as [out' |]; [| discriminate].
    intros _. cbn. apply (IH out' eq_refl).
Qed.

Lemma hex_Decode_rejects (src : list byte) (c : byte) :
  In c src -> isHexChar c = false -> is_ok (hex_Decode src) = false.
Proof.
  intros Hin Hc. destruct (hex_Decode src) as [out |] eqn:Hd; [| reflexivity].
  pose proof (hex_Decode_Ok_digits src out Hd) as Hall.
  rewrite forallb_forall in Hall. rewrite (Hall c Hin) in Hc. discriminate.
Qed.

Lemma base64_Encode_padded (src : list byte) :
  (length src mod 3 <> 0)%nat -> In padChar (base64_Encode src).
Proof.
  induction src as [| a | a b | a b c rest IH] using list_ind3; intros Hlen.
  - cbn in Hlen. contradiction.
  - cbn. auto.
  - cbn. auto.
  - cbn [base64_Encode]. do 4 right. apply IH.
    cbn [length] in Hlen.
    replace (S (S (S (length rest)))) with (length rest + 1 * 3)%nat in Hlen
      by lia.
    rewrite Nat.Div0.mod_add in Hlen. exact Hlen.
Qed.

(** X13. An encoded signature read back by auto-detection: the value
    [encodeBinary] makes of a signature decodes, through
    [decodeSignature], to the signature again for the raw, "binary" and
    "hex" formats always, and for "base64" whenever the text is not
    also valid hexadecimal, which is the case of every signature whose
    length is not a multiple of three (it ends in padding).  It is not
    so for all base64 text: the six bytes 75 e6 9d 6d e7 9f encode to
    "deadbeef", which is read back as four other bytes. *)
Theorem encoded_signature_detection :
  (forall sig format enc,
      encodeBinary sig format = Ok enc ->
      format <> "base64"
      \/ (length sig mod 3 <> 0)%nat
      \/ is_ok (hex_DecodeString (base64_EncodeToString sig)) = false ->
      decodeSignature enc = Ok sig)
  /\ (let sig := bytes_of_Zs [117; 230; 157; 109; 231; 159] in
      encodeBinary sig "base64" = Ok (VString "deadbeef")
      /\ decodeSignature (VString "deadbeef")
         = Ok (bytes_of_Zs [222; 173; 190; 239])).
Proof.
  split; [| vm_compute; split; reflexivity].
  intros sig format enc Henc Hcase. unfold encodeBinary in Henc.
  destruct (String.eqb_spec format "").
  { injection Henc as <-. reflexivity. }
  destruct (String.eqb_spec format "binary").
  { injection Henc as <-. reflexivity. }
  destruct (String.eqb_spec format "hex").
  { injection Henc as <-. unfold decodeSignature, decodeBinaryDetect. cbn.
    rewrite hex_round_trip. reflexivity. }
  destruct (String.eqb_spec format "base64"); [| discriminate].
  injection Henc as <-. apply decodeSignature_base64.
  destruct Hcase as [Hf | [Hlen | Hhex]]; [contradiction | | exact Hhex].
  unfold hex_DecodeString, base64_EncodeToString.
  rewrite list_byte_of_string_of_list_byte.
  apply (hex_Decode_rejects _ padChar);
    [apply base64_Encode_padded; exact Hlen | reflexivity].
Qed.

Lemma encoded_signature_detection_witness :
  decodeSignature (VString "aGk=") = Ok (list_byte_of_string "hi").
Proof.
  apply (proj1 encoded_signature_detection (list_byte_of_string "hi")
           "base64" (VString "aGk=")).
  - reflexivity.
  - right. left. cbn. discriminate.
Defined.

(** X15. Encoding loses nothing: under any one format, two byte
    sequences with the same encoding are the same sequence. *)
Theorem encodeBinary_injective (b b' : list byte) (format : string)
    (v : value) :
  encodeBinary b format = Ok v -> encodeBinary b' format = Ok v -> b = b'.
Proof.
  unfold encodeBinary.
  destruct (String.eqb format ""); [congruence |].
  destruct (String.eqb format "binary"); [congruence |].
  destruct (String.eqb format "hex").
  { intros [= <-] [= Heq].
    pose proof (hex_round_trip b) as Hb. rewrite <- Heq in Hb.
    rewrite hex_round_trip in Hb. congruence. }
  destruct (String.eqb format "base64"); [| discriminate].
  intros [= <-] [= Heq].
  pose proof (base64_round_trip b) as Hb. rewrite <- Heq in Hb.
  rewrite base64_round_trip in Hb. congruence.
Qed.

Lemma encodeBinary_injective_witness :
  list_byte_of_string "hi" = bytes_of_Zs [104; 105].
Proof.
  apply (encodeBinary_injective _ _ "hex" (VString "6869")); reflexivity.
Defined.

(** ** Decimal parsing: bounds and rejected text *)

Lemma parseUint_digits_Ok (s : list byte) :
  forall n v, 0 <= n -> parseUint_digits n s = Ok v ->
    forallb isDigitByte s = true /\ 0 <= v.
Proof.
  induction s as [| c s IH]; intros n v Hn.
  - cbn. intros [= <-]. auto.
  - cbn [parseUint_digits forallb]. cbv zeta. fold (isDigitByte c).
    destruct (isDigitByte c); [| discriminate].
    destruct (n >=? maxUint64 / 10 + 1); [discriminate |].
    destruct (((n * 10 + (byte_to_Z c - 48)) mod 2 ^ 64 <? n * 10)
              || ((n * 10 + (byte_to_Z c - 48)) mod 2 ^ 64 >? maxUint64));
      [discriminate |].
    intros Hrec. apply IH in Hrec; [exact Hrec |].
    apply Z.mod_pos_bound. reflexivity.
Qed.

Lemma ParseUint_Ok (s : list byte) (v : Z) :
  strconv_ParseUint s = Ok v ->
  s <> [] /\ forallb isDigitByte s = true /\ 0 <= v.
Proof.
  destruct s as [| c s]; [discriminate |].
  change (strconv_ParseUint (c :: s)) with (parseUint_digits 0 (c :: s)).
  intros H. split; [discriminate |].
  apply (parseUint_digits_Ok _ 0 v); [lia | exact H].
Qed.

(** X14. [decodeInt] never fails and never leaves the 64-bit range: its
    result lies between -2^63 and 2^63 - 1; and it is 0 unless the text
    is an optional sign ("+" or "-") followed by one or more decimal
    digits and nothing else, so spaces, a hexadecimal prefix, a decimal
    point or an exponent all give 0. *)
Theorem decodeInt_range_and_syntax (s : string) :
  - 2 ^ 63 <= decodeInt s < 2 ^ 63
  /\ (decodeInt s <> 0 ->
      exists sign digits,
        list_byte_of_string s = (sign ++ digits)%list
        /\ (sign = [] \/ sign = ["+"%byte] \/ sign = ["-"%byte])
        /\ digits <> []
        /\ forallb isDigitByte digits = true).
Proof.
  unfold decodeInt, strconv_ParseInt.
  change (2 ^ 63) with 9223372036854775808.
  destruct (list_byte_of_string s) as [| c rest]; [split; [lia | congruence] |].
  cbv zeta.
  set (digits := if byte_eqb c "+" then rest
                 else if byte_eqb c "-" then rest else c :: rest).
  assert (Hsplit : exists sign,
             c :: rest = (sign ++ digits)%list
             /\ (sign = [] \/ sign = ["+"%byte] \/ sign = ["-"%byte])).
  { subst digits.
    destruct (byte_eqb c "+") eqn:Hp.
    { apply byte_eqb_eq in Hp. subst c. exists ["+"%byte]. auto. }
    destruct (byte_eqb c "-") eqn:Hm.
    { apply byte_eqb_eq in Hm. subst c. exists ["-"%byte]. auto. }
    exists []. auto. }
  destruct (strconv_ParseUint digits) as [un | e] eqn:Hu.
  2:{ destruct e; split; (lia || congruence). }
  destruct (ParseUint_Ok _ _ Hu) as (Hne & Hall & Hun).
  assert (Hsyn : exists sign digits0,
             c :: rest = (sign ++ digits0)%list
             /\ (sign = [] \/ sign = ["+"%byte] \/ sign = ["-"%byte])
             /\ digits0 <> [] /\ forallb isDigitByte digits0 = true).
  { destruct Hsplit as (sign & Heq & Hsign). exists sign, digits. auto. }
  rewrite Z.geb_leb, Z.gtb_ltb.
  destruct (byte_eqb c "-"); cbn [negb andb].
  - destruct (Z.ltb_spec 9223372036854775808 un).
    + split; [lia | congruence].
    + split; [lia | intros _; exact Hsyn].
  - destruct (Z.leb_spec 9223372036854775808 un).
    + split; [lia | congruence].
    + split; [lia | intros _; exact Hsyn].
Qed.

Lemma decodeInt_range_and_syntax_witness :
  exists sign digits,
    list_byte_of_string "-12" = (sign ++ digits)%list
    /\ (sign = [] \/ sign = ["+"%byte] \/ sign = ["-"%byte])
    /\ digits <> []
    /\ forallb isDigitByte digits = true.
Proof.
  apply (proj2 (decodeInt_range_and_syntax "-12")).
  vm_compute. discriminate.
Defined.

(** ** Base64 text without padding *)

Lemma quantumBytes_full (d0 d1 d2 d3 : Z) :
  length (quantumBytes [d0; d1; d2; d3]) = 3%nat.
Proof. reflexivity. Qed.

Lemma base64_decode_digits_only (src : list byte) :
  forall dbuf,
    forallb isBase64Digit src = true -> (length dbuf < 4)%nat ->
    (((length dbuf + length src) mod 4 = 0)%nat ->
     exists out,
       base64_decode dbuf src = Ok out
       /\ length out = (3 * ((length dbuf + length src) / 4))%nat)
    /\ (((length dbuf + length src) mod 4 <> 0)%nat ->
        base64_decode dbuf src = Err base64_CorruptInputError).
Proof.
  induction src as [| c rest IH]; intros dbuf Hall Hlen.
  - cbn [base64_decode length]. rewrite Nat.add_0_r.
    destruct dbuf as [| d dbuf].
    + split; [| intros H; cbn in H; congruence].
      intros _. exists []. split; reflexivity.
    + split; [| reflexivity].
      intros Hmod. cbn [length] in *.
      rewrite Nat.mod_small in Hmod by lia. discriminate.
  - cbn [forallb] in Hall. apply andb_prop in Hall. destruct Hall as [Hc Hall].
    cbn [base64_decode length]. unfold isBase64Digit in Hc.
    destruct (decodeMap c) as [out |]; [| discriminate].
    rewrite length_app. cbn [length].
    destruct (Nat.eqb_spec (length dbuf + 1) 4) as [Hfull | Hpart].
    + destruct (IH [] Hall ltac:(cbn; lia)) as (IHok & IHerr).
      cbn [length] in IHok, IHerr.
      replace (length dbuf + S (length rest))%nat
        with (0 + length rest + 1 * 4)%nat by lia.
      rewrite Nat.Div0.mod_add, Nat.div_add by lia.
      split.
      * intros Hmod. destruct (IHok Hmod) as (tl & -> & Htl).
        eexists. split; [reflexivity |].
        rewrite length_app, Htl.
        destruct dbuf as [| d0 [| d1 [| d2 [| d3 dbuf]]]];
          cbn [length] in Hfull; try lia.
        cbn [app]. rewrite quantumBytes_full. lia.
      * intros Hmod. rewrite (IHerr Hmod). reflexivity.
    + destruct (IH (dbuf ++ [out])%list Hall) as (IHok & IHerr).
      { rewrite length_app. cbn [length]. lia. }
      rewrite length_app in IHok, IHerr. cbn [length] in IHok, IHerr.
      replace (length dbuf + S (length rest))%nat
        with (length dbuf + 1 + length rest)%nat by lia.
      split; assumption.
Qed.

Lemma base64_Decode_digits (src : list byte) :
  forallb isBase64Digit src = true ->
  ((length src mod 4 = 0)%nat ->
   exists out, base64_Decode src = Ok out
               /\ length out = (3 * (length src / 4))%nat)
  /\ ((length src mod 4 <> 0)%nat ->
      base64_Decode src = Err base64_CorruptInputError).
Proof.
  intros Hall. unfold base64_Decode.
  apply (base64_decode_digits_only src [] Hall). cbn. lia.
Qed.

(** X16. Base64 text must be padded: on a string made of base64 digits
    only, [decodeBinary] with format "base64" succeeds exactly when the
    number of digits is a multiple of four, giving three bytes per four
    digits; any other count of digits, such as the unpadded "aGk", is
    an error. *)
Theorem base64_decoding_requires_padding (s : string) :
  let src := list_byte_of_string s in
  forallb isBase64Digit src = true ->
  ((length src mod 4 = 0)%nat ->
   exists out, decodeBinary (VString s) "base64" = Ok out
               /\ length out = (3 * (length src / 4))%nat)
  /\ ((length src mod 4 <> 0)%nat ->
      decodeBinary (VString s) "base64" = Err base64_CorruptInputError).
Proof.
  intros src.
  change (decodeBinary (VString s) "base64") with (base64_Decode src).
  apply base64_Decode_digits.
Qed.

Lemma base64_decoding_requires_padding_witness :
  decodeBinary (VString "aGk") "base64" = Err base64_CorruptInputError
  /\ exists out, decodeBinary (VString "aGVs") "base64" = Ok out
                 /\ length out = 3%nat.
Proof.
  split.
  - apply (base64_decoding_requires_padding "aGk").
    + reflexivity.
    + cbn. discriminate.
  - apply (base64_decoding_requires_padding "aGVs"); reflexivity.
Defined.

(** ** Key validation and the order of checks *)

(** X17. The order of checks.  One-shot [Sign] and [Verify] check, in
    this order and stopping at the first failure: the key (an invalid
    key is reported whatever the digest name and the data), the digest
    name, the plaintext encoding, then the hashing; in [Verify] the
    signature is decoded only after the plaintext has been hashed, so a
    hashing failure is reported whatever the signature.  The chunked
    [Verifier.Verify] does the opposite: an undecodable signature is
    reported whatever the hashing would do, and the hashing failure
    only once the signature has decoded. *)
Theorem order_of_checks (lib : Primitives) (rnd : entropy)
    (k : x509_PrivateKey) (pub : x509_PublicKey) (functionEncoded : string)
    (plaintextEncoded signatureEncoded : value) (format : string)
    (options : SigningOptions) (verifier : Verifier) :
  (* the key *)
  (forall e, validatePrivateKey k = Some e ->
     Crypto_Sign lib rnd k functionEncoded plaintextEncoded format options
     = throw e)
  /\ (forall e, validatePublicKey pub = Some e ->
        Crypto_Verify lib pub functionEncoded plaintextEncoded
          signatureEncoded options = throw e)
  (* the digest name *)
  /\ (forall e, validatePrivateKey k = None ->
        decodeFunction lib functionEncoded = Err e ->
        Crypto_Sign lib rnd k functionEncoded plaintextEncoded format options
        = throw e)
  /\ (forall e, validatePublicKey pub = None ->
        decodeFunction lib functionEncoded = Err e ->
        Crypto_Verify lib pub functionEncoded plaintextEncoded
          signatureEncoded options = throw e)
  (* the plaintext *)
  /\ (forall e function, validatePrivateKey k = None ->
        decodeFunction lib functionEncoded = Ok function ->
        decodePlaintext plaintextEncoded = Err e ->
        Crypto_Sign lib rnd k functionEncoded plaintextEncoded format options
        = throw e)
  /\ (forall e function, validatePublicKey pub = None ->
        decodeFunction lib functionEncoded = Ok function ->
        decodePlaintext plaintextEncoded = Err e ->
        Crypto_Verify lib pub functionEncoded plaintextEncoded
          signatureEncoded options = throw e)
  (* the hashing, before the signature is looked at *)
  /\ (forall function plaintext, validatePrivateKey k = None ->
        decodeFunction lib functionEncoded = Ok function ->
        decodePlaintext plaintextEncoded = Ok plaintext ->
        (forall p, hashPlaintext lib functionEncoded plaintext = Panicked p ->
           Crypto_Sign lib rnd k functionEncoded plaintextEncoded format
             options = Panicked p)
        /\ (forall e,
              hashPlaintext lib functionEncoded plaintext = Done (Err e) ->
              Crypto_Sign lib rnd k functionEncoded plaintextEncoded format
                options = throw e))
  /\ (forall function plaintext, validatePublicKey pub = None ->
        decodeFunction lib functionEncoded = Ok function ->
        decodePlaintext plaintextEncoded = Ok plaintext ->
        (forall p, hashPlaintext lib functionEncoded plaintext = Panicked p ->
           Crypto_Verify lib pub functionEncoded plaintextEncoded
             signatureEncoded options = Panicked p)
        /\ (forall e,
              hashPlaintext lib functionEncoded plaintext = Done (Err e) ->
              Crypto_Verify lib pub functionEncoded plaintextEncoded
                signatureEncoded options = throw e)
        (* the signature, last *)
        /\ (forall digest e,
              hashPlaintext lib functionEncoded plaintext = Done (Ok digest) ->
              decodeSignature signatureEncoded = Err e ->
              Crypto_Verify lib pub functionEncoded plaintextEncoded
                signatureEncoded options = throw e)
        /\ (forall digest signature,
              hashPlaintext lib functionEncoded plaintext = Done (Ok digest) ->
              decodeSignature signatureEncoded = Ok signature ->
              Crypto_Verify lib pub functionEncoded plaintextEncoded
                signatureEncoded options
              = (r ← executeVerify lib pub function digest signature options;
                 orThrow r)))
  (* the chunked verifier: the signature first, then the hashing *)
  /\ (forall e, decodeSignature signatureEncoded = Err e ->
        fst (Verifier_Verify lib verifier pub signatureEncoded) = throw e)
  /\ (forall signature, decodeSignature signatureEncoded = Ok signature ->
        (forall p,
            hashPlaintext lib (verifier_functionEncoded verifier)
              (verifier_plaintext verifier) = Panicked p ->
            fst (Verifier_Verify lib verifier pub signatureEncoded)
            = Panicked p)
        /\ (forall e,
               hashPlaintext lib (verifier_functionEncoded verifier)
                 (verifier_plaintext verifier) = Done (Err e) ->
               fst (Verifier_Verify lib verifier pub signatureEncoded)
               = throw e)).
Proof.
  split; [intros e; apply Crypto_Sign_invalid |].
  split; [intros e; apply Crypto_Verify_invalid |].
  split.
  { intros e Hk Hf. unfold Crypto_Sign, prepareSign. rewrite Hk, Hf.
    reflexivity. }
  split.
  { intros e Hk Hf. unfold Crypto_Verify, prepareVerify. rewrite Hk, Hf.
    reflexivity. }
  split.
  { intros e function Hk Hf Hp. unfold Crypto_Sign, prepareSign.
    rewrite Hk, Hf, Hp. reflexivity. }
  split.
  { intros e function Hk Hf Hp. unfold Crypto_Verify, prepareVerify.
    rewrite Hk, Hf, Hp. reflexivity. }
  split.
  { intros function plaintext Hk Hf Hp.
    split; [intros p Hh | intros e Hh];
      unfold Crypto_Sign, prepareSign; rewrite Hk, Hf, Hp;
      cbn [checkKey orThrow mbind go_bind]; rewrite Hh; reflexivity. }
  split.
  { intros function plaintext Hk Hf Hp.
    split; [| split; [| split]].
    - intros p Hh. unfold Crypto_Verify, prepareVerify. rewrite Hk, Hf, Hp.
      cbn [checkKey orThrow mbind go_bind]. rewrite Hh. reflexivity.
    - intros e Hh. unfold Crypto_Verify, prepareVerify. rewrite Hk, Hf, Hp.
      cbn [checkKey orThrow mbind go_bind]. rewrite Hh. reflexivity.
    - intros digest e Hh Hs. unfold Crypto_Verify, prepareVerify.
      rewrite Hk, Hf, Hp. cbn [checkKey orThrow mbind go_bind]. rewrite Hh.
      cbn [orThrow mbind go_bind]. rewrite Hs. reflexivity.
    - intros digest signature Hh Hs.
      apply (Crypto_Verify_steps lib _ _ _ _ _ function plaintext digest
               signature); assumption. }
  split.
  { intros e Hs. unfold Verifier_Verify. cbn [fst]. rewrite Hs. reflexivity. }
  intros signature Hs.
  split; [intros p Hh | intros e Hh];
    unfold Verifier_Verify; cbn [fst]; rewrite Hs;
    cbn [orThrow mbind go_bind]; rewrite Hh; reflexivity.
Qed.

Lemma order_of_checks_witness :
  Crypto_Sign toyPrimitives toy_rnd
    {| priv_Algorithm := "Ed25519"; priv_Key := KeyOther |}
    "whirlpool" VOther "utf8" ∅
  = throw (errors_New "invalid private key")
  /\ Crypto_Sign toyPrimitives toy_rnd
       {| priv_Algorithm := "RSA"; priv_Key := KeyRSAPrivate toy_rsa_key |}
       "whirlpool" VOther "utf8" ∅
     = throw (errors_New "unsupported hash function: whirlpool")
  /\ Crypto_Verify toyPrimitives
       {| pub_Algorithm := "RSA";
          pub_Key := KeyRSAPublic (rsa_Public toy_rsa_key) |}
       "sha256" (VString "6869") VOther ∅
     = throw (errors_Wrap UnrecognizedEncoding "could not decode signature")
  /\ fst (Verifier_Verify toyPrimitives
            {| verifier_function := 5; verifier_functionEncoded := "whirlpool";
               verifier_options := ∅; verifier_plaintext := [] |}
            {| pub_Algorithm := "RSA";
               pub_Key := KeyRSAPublic (rsa_Public toy_rsa_key) |}
            (VString "00"))
     = throw (errors_New "unsupported hash function: whirlpool").
Proof.
  split; [| split; [| split]].
  - apply (proj1 (order_of_checks toyPrimitives toy_rnd
             {| priv_Algorithm := "Ed25519"; priv_Key := KeyOther |}
             (publicOf {| priv_Algorithm := "Ed25519"; priv_Key := KeyOther |})
             "whirlpool" VOther VOther "utf8" ∅ toy_verifier)).
    reflexivity.
  - apply (proj1 (proj2 (proj2 (order_of_checks toyPrimitives toy_rnd
             {| priv_Algorithm := "RSA"; priv_Key := KeyRSAPrivate toy_rsa_key |}
             (publicOf {| priv_Algorithm := "Ed25519"; priv_Key := KeyOther |})
             "whirlpool" VOther VOther "utf8" ∅ toy_verifier))));
      reflexivity.
  - pose proof (order_of_checks toyPrimitives toy_rnd
             {| priv_Algorithm := "RSA"; priv_Key := KeyRSAPrivate toy_rsa_key |}
             {| pub_Algorithm := "RSA";
                pub_Key := KeyRSAPublic (rsa_Public toy_rsa_key) |}
             "sha256" (VString "6869") VOther "" ∅ toy_verifier)
      as (_ & _ & _ & _ & _ & _ & _ & Hv & _).
    destruct (Hv 5 (list_byte_of_string "hi") eq_refl eq_refl eq_refl)
      as (_ & _ & Hsig & _).
    apply (Hsig (list_byte_of_string "hi")); reflexivity.
  - pose proof (order_of_checks toyPrimitives toy_rnd
             {| priv_Algorithm := "RSA"; priv_Key := KeyRSAPrivate toy_rsa_key |}
             {| pub_Algorithm := "RSA";
                pub_Key := KeyRSAPublic (rsa_Public toy_rsa_key) |}
             "sha256" (VString "6869") (VString "00") "" ∅
             {| verifier_function := 5; verifier_functionEncoded := "whirlpool";
                verifier_options := ∅; verifier_plaintext := [] |})
      as (_ & _ & _ & _ & _ & _ & _ & _ & _ & Hw).
    destruct (Hw (bytes_of_Zs [0]) eq_refl) as (Hp & _).
    apply Hp. reflexivity.
Defined.

(** ** The string entry points, round trip *)

Section StringEntry.

Context (lib : Primitives).

Lemma Crypto_SignString_as_Sign rnd k functionEncoded (text : string) format
    options :
  Crypto_SignString lib rnd k functionEncoded text format options
  = Crypto_Sign lib rnd k functionEncoded (VBytes (list_byte_of_string text))
      format options.
Proof.
  unfold Crypto_SignString, Crypto_Sign, prepareSignString, prepareSign.
  destruct (validatePrivateKey k); [reflexivity |].
  cbn [checkKey mbind go_bind].
  destruct (decodeFunction lib functionEncoded); reflexivity.
Qed.

Lemma Crypto_VerifyString_as_Verify k functionEncoded (text : string)
    signatureEncoded options :
  Crypto_VerifyString lib k functionEncoded text signatureEncoded options
  = Crypto_Verify lib k functionEncoded (VBytes (list_byte_of_string text))
      signatureEncoded options.
Proof.
  unfold Crypto_VerifyString, Crypto_Verify, prepareVerifyString,
    prepareVerify.
  destruct (validatePublicKey k); [reflexivity |].
  cbn [checkKey mbind go_bind].
  destruct (decodeFunction lib functionEncoded); reflexivity.
Qed.

End StringEntry.

(** X1. Round trip through the string entry points: for primitives that
    meet their contracts and a consistent key pair, what [SignString]
    returns for a text, [VerifyString] accepts (returns true) for the
    same text, digest name and options with the public half of the
    key, provided auto-detection reads the encoded signature back
    (always for the raw, "binary" and "hex" formats; for "base64" when
    the text of the signature is not also valid hexadecimal). *)
Theorem string_sign_then_verify (lib : Primitives) (consistent : key -> Prop)
    (Hlib : PrimitivesSpec lib consistent)
    (rnd : entropy) (k : x509_PrivateKey) (functionEncoded text : string)
    (format : string) (options : SigningOptions) (enc : value) :
  consistent (priv_Key k) ->
  Crypto_SignString lib rnd k functionEncoded text format options = Done enc ->
  readsBack format enc ->
  Crypto_VerifyString lib (publicOf k) functionEncoded text enc options
  = Done true.
Proof.
  intros Hcons Hsign Hback.
  rewrite Crypto_SignString_as_Sign in Hsign.
  rewrite Crypto_VerifyString_as_Verify.
  destruct (Crypto_Sign_done lib _ _ _ _ _ _ _ Hsign)
    as (Hk & function & plaintext & digest & Hf & Hp & Hh & Hx).
  destruct (sign_then_verify lib consistent Hlib _ _ _ _ _ _ _
              Hcons Hx Hback) as (sig & Hsig & Hver & _).
  rewrite (Crypto_Verify_steps lib _ _ _ _ _ function plaintext digest sig)
    by (try assumption; apply validate_publicOf; exact Hk).
  rewrite Hver. reflexivity.
Qed.

Lemma string_sign_then_verify_witness :
  Crypto_VerifyString toyPrimitives
    (publicOf {| priv_Algorithm := "DSA";
                 priv_Key := KeyDSAPrivate toy_dsa_key |})
    "sha256" "6869" (VString "CAQ=") ∅
  = Done true.
Proof.
  refine (string_sign_then_verify toyPrimitives toy_consistent
            toyPrimitives_spec toy_rnd
            {| priv_Algorithm := "DSA";
               priv_Key := KeyDSAPrivate toy_dsa_key |}
            "sha256" "6869" "base64" ∅ (VString "CAQ=") I _ _).
  - vm_compute. reflexivity.
  - intros _ t [= <-]. vm_compute. reflexivity.
Defined.
